(** * Rain Risk Analyzer: the acquisition and aggregation pipeline of [app.py]

    A shallow embedding of the four core functions of [src/app.py]
    ([get_coordinates], [find_nearest_station], [fetch_precipitation_data],
    [process_data]) and of its main execution block, followed by the
    properties the specification states about them.

    Numbers that the program holds in Python floats (precipitation values,
    the threshold, the monthly means) are IEEE 754 binary64 values here too:
    Rocq's primitive [float], whose operations round as the hardware does. *)

From Stdlib Require Import ZArith List String Bool Lia Permutation Sorted.
From Stdlib Require Import Floats Uint63.
Import ListNotations.
Local Open Scope string_scope.
Local Open Scope list_scope.
Local Open Scope Z_scope.

(* Decimal literals denote the nearest binary64 value, as in Python. *)
Set Warnings "-inexact-float".

(** ** Constants *)

Definition MM_TO_INCHES : float := 0.0393701%float.
Definition RESULTS_PER_PAGE : Z := 1000.

(** ** Data model *)

(** A calendar date as [pd.to_datetime] yields it: the program only reads
    [.dt.year] and [.dt.month]. *)
Record Timestamp : Set := mkTimestamp {
  ts_year  : Z;
  ts_month : Z;
  ts_day   : Z
}.

(** One element of a [results] array of the observation service: the two
    fields the program reads, and the station the service echoes back, which
    stands for the metadata carried along unchanged. *)
Record Observation : Set := mkObservation {
  date    : Timestamp;
  value   : float;
  station : string
}.

(** The frame [process_data] returns: the label of the second column depends
    on the threshold, and each row pairs a month name with a mean.  A month
    number outside [month_map] would show as a missing name, hence the
    option. *)
Record Table : Set := mkTable {
  days_label : float;
  rows       : list (option string * float)
}.

(** ** The part of pandas the aggregator uses *)

Module Pandas.

Section GroupBy.
Context {K : Type}.
Variable cmp : K -> K -> comparison.

Definition key_eqb (a b : K) : bool :=
  match cmp a b with Eq => true | _ => false end.

(** [groupby] sorts the group keys and keeps each once. *)
Fixpoint insert_key (k : K) (ks : list K) : list K :=
  match ks with
  | [] => [k]
  | h :: t =>
      match cmp k h with
      | Lt => k :: ks
      | Eq => ks
      | Gt => h :: insert_key k t
      end
  end.

Definition sorted_keys (ks : list K) : list K :=
  fold_right insert_key [] ks.

(** Split, apply, combine: one output row per distinct key, in ascending
    key order, holding the aggregate of the rows that carry the key (in
    their original order). *)
Definition groupby {R A : Type} (key : R -> K) (agg : list R -> A)
    (frame : list R) : list (K * A) :=
  map (fun k => (k, agg (filter (fun r => key_eqb (key r) k) frame)))
      (sorted_keys (map key frame)).
End GroupBy.

(** [DataFrame.empty]: no rows. *)
Definition empty {R : Type} (frame : list R) : bool :=
  match frame with [] => true | _ :: _ => false end.

(** An int64 count read as a float64. *)
Definition float_of_nat (n : nat) : float :=
  PrimFloat.of_uint63 (Uint63.of_Z (Z.of_nat n)).

(** [.mean()] of an integer column: the sum over the number of entries, as a
    float64 (and NaN for no entry, as 0/0). *)
Definition mean (days : list nat) : float :=
  (float_of_nat (list_sum days) / float_of_nat (List.length days))%float.

End Pandas.

(** What [groupby] needs of a three-way comparison of keys. *)
Class KeyOrder {K : Type} (cmp : K -> K -> comparison) : Prop := {
  cmp_eq : forall a b, cmp a b = Eq -> a = b;
  cmp_antisym : forall a b, cmp b a = CompOpp (cmp a b);
  cmp_trans : forall a b c, cmp a b = Lt -> cmp b c = Lt -> cmp a c = Lt
}.

(** ** The aggregator *)

Definition ym_compare (a b : Z * Z) : comparison :=
  match Z.compare (fst a) (fst b) with
  | Eq => Z.compare (snd a) (snd b)
  | c => c
  end.

(** What the conversion makes of one row. *)
Definition in_inches (r : Observation) : Observation :=
  mkObservation (date r) (value r * MM_TO_INCHES)%float (station r).

(** [df["value"] = df["value"] * MM_TO_INCHES] *)
Definition convert_units (df : list Observation) : list Observation :=
  map in_inches df.

(** [df = df[df["value"] >= threshold]] *)
Definition threshold_filter (threshold : float) (df : list Observation)
    : list Observation :=
  filter (fun r => (threshold <=? value r)%float) df.

(** The [year] and [month] columns. *)
Definition year_month (r : Observation) : Z * Z :=
  (ts_year (date r), ts_month (date r)).

(** [df.groupby(["year", "month"]).size().reset_index(name="days")] *)
Definition monthly_counts (df : list Observation) : list ((Z * Z) * nat) :=
  Pandas.groupby ym_compare year_month (@List.length Observation) df.

(** [monthly_counts.groupby("month")["days"].mean().reset_index()] *)
Definition avg_days (counts : list ((Z * Z) * nat)) : list (Z * float) :=
  Pandas.groupby Z.compare (fun row => snd (fst row))
    (fun g => Pandas.mean (map snd g)) counts.

(** The number [size()] reports for one year and month: the rows of the
    frame that fall in it. *)
Definition days_in (df : list Observation) (year month : Z) : nat :=
  List.length
    (filter (fun r => Pandas.key_eqb ym_compare (year_month r) (year, month)) df).

(** The rows of [monthly_counts] that the second grouping hands to [mean]
    for one month. *)
Definition month_group (counts : list ((Z * Z) * nat)) (month : Z)
    : list ((Z * Z) * nat) :=
  filter (fun row => Pandas.key_eqb Z.compare (snd (fst row)) month) counts.

Definition month_names : list string :=
  ["January"; "February"; "March"; "April"; "May"; "June";
   "July"; "August"; "September"; "October"; "November"; "December"].

(** [enumerate(names, start=1)] *)
Fixpoint enumerate {A : Type} (start : Z) (l : list A) : list (Z * A) :=
  match l with
  | [] => []
  | x :: t => (start, x) :: enumerate (start + 1) t
  end.

Definition month_map : list (Z * string) := enumerate 1 month_names.

Fixpoint dict_get {A : Type} (d : list (Z * A)) (k : Z) : option A :=
  match d with
  | [] => None
  | (k', v) :: t => if Z.eqb k k' then Some v else dict_get t k
  end.

Definition process_data (data : list Observation) (threshold : float)
    : option Table :=
  let df := data in
  if Pandas.empty df then None
  else
    let df := convert_units df in
    let df := threshold_filter threshold df in
    let counts := monthly_counts df in
    let avg := avg_days counts in
    Some (mkTable threshold
            (map (fun row => (dict_get month_map (fst row), snd row)) avg)).

(** ** The outside world

    The geocoder and the two endpoints of the climate-data service are
    functions of the request: what the program sends decides what it gets. *)

Inductive exn : Set :=
| ValueError (msg : string)      (* raised by [get_coordinates] *)
| HTTPError (status_code : Z)    (* raised by [raise_for_status] *)
| JSONDecodeError                (* [response.json()] on a body that is no JSON object *)
| ConnectionError.               (* [requests.get] or the geocoder could not reach the service *)

(** What [requests.get] gives back: an exception when the service cannot be
    reached, otherwise a status and a body.  [json_results] is what
    [response.json().get("results", [])] evaluates to, [None] standing for a
    body on which that expression raises. *)
Inductive Reply (A : Type) : Type :=
| Unreachable
| Response (status_code : Z) (json_results : option (list A)).
Arguments Unreachable {A}.
Arguments Response {A} status_code json_results.

Record StationQuery : Set := mkStationQuery {
  sq_token     : string;
  sq_datasetid : string;
  sq_latitude  : float;
  sq_longitude : float;
  sq_sortfield : string;
  sq_sortorder : string;
  sq_limit     : Z
}.

Record DataQuery : Set := mkDataQuery {
  dq_token      : string;
  dq_datasetid  : string;
  dq_stationid  : option string;
  dq_datatypeid : string;
  dq_startdate  : Timestamp;
  dq_enddate    : Timestamp;
  dq_limit      : Z;
  dq_offset     : Z;
  dq_units      : string
}.

Inductive GeoReply : Set :=
| GeoUnreachable
| GeoLocation (location : option (float * float)).

Record Services : Type := mkServices {
  geocode      : string -> GeoReply;
  stations_api : StationQuery -> Reply string;
  data_api     : DataQuery -> Reply Observation
}.

(** What a run does that can be observed: calls of the four core functions,
    requests, pauses, and what the page shows. *)
Inductive Event : Set :=
| Call_get_coordinates (address : string)
| Call_find_nearest_station (lat lon : float) (token : string)
| Call_fetch_precipitation_data (station_id : option string) (token : string)
    (start_year end_year : Z)
| Call_process_data (data : list Observation) (threshold : float)
| Geocode (address : string)
| GetStations (q : StationQuery)
| GetData (q : DataQuery)
| Sleep (milliseconds : Z)
| St_success
| St_subheader (threshold : float)
| St_dataframe (t : Table)
| St_download_button (t : Table) (start_year end_year : Z)
| St_warning (msg : string)
| St_error (e : exn).

(** ** Computations with a trace, exceptions and bounded loops *)

Inductive outcome (A : Type) : Type :=
| Returned (a : A)
| Raised (e : exn)
| Running.   (* the loop bound ran out with the loop still going *)
Arguments Returned {A} a.
Arguments Raised {A} e.
Arguments Running {A}.

Definition Run (A : Type) : Type := list Event * outcome A.

Definition ret {A : Type} (a : A) : Run A := ([], Returned a).
Definition raise {A : Type} (e : exn) : Run A := ([], Raised e).
Definition emit (ev : Event) : Run unit := ([ev], Returned tt).

Definition bind {A B : Type} (c : Run A) (k : A -> Run B) : Run B :=
  match c with
  | (tr, Returned a) => let (tr', o) := k a in (tr ++ tr', o)
  | (tr, Raised e) => (tr, Raised e)
  | (tr, Running) => (tr, Running)
  end.

Notation "x <- c ;; k" := (bind c (fun x => k))
  (at level 61, c at next level, right associativity).
Notation "c ;;; k" := (bind c (fun _ => k))
  (at level 61, right associativity).

(** ** Requests *)

Definition requests_get {Q A : Type} (ev : Q -> Event) (api : Q -> Reply A)
    (q : Q) : Run (Reply A) :=
  emit (ev q) ;;;
  match api q with
  | Unreachable => raise ConnectionError
  | r => ret r
  end.

(** [Response.raise_for_status]: client and server error statuses raise. *)
Definition raise_for_status {A : Type} (response : Reply A) : Run unit :=
  match response with
  | Unreachable => raise ConnectionError
  | Response status_code _ =>
      if (400 <=? status_code) && (status_code <? 600)
      then raise (HTTPError status_code)
      else ret tt
  end.

(** A response that [raise_for_status] turns into an exception. *)
Definition non_success (code : Z) : Prop := 400 <= code < 600.

(** [response.json().get("results", [])] *)
Definition results_of {A : Type} (response : Reply A) : Run (list A) :=
  match response with
  | Response _ (Some l) => ret l
  | Response _ None => raise JSONDecodeError
  | Unreachable => raise ConnectionError
  end.

(** ** Core functions *)

Definition get_coordinates (sv : Services) (address : string)
    : Run (float * float) :=
  emit (Geocode address) ;;;
  match geocode sv address with
  | GeoUnreachable => raise ConnectionError
  | GeoLocation None => raise (ValueError "Could not geocode address.")
  | GeoLocation (Some location) => ret location
  end.

Definition station_params (lat lon : float) (token : string) : StationQuery :=
  mkStationQuery token "GHCND" lat lon "distance" "asc" 1.

Definition find_nearest_station (sv : Services) (lat lon : float)
    (token : string) : Run (option string) :=
  let params := station_params lat lon token in
  response <- requests_get GetStations (stations_api sv) params ;;
  raise_for_status response ;;;
  results <- results_of response ;;
  ret (match results with id :: _ => Some id | [] => None end).

(** [range(a, b)] *)
Definition range (a b : Z) : list Z :=
  map (fun i => a + Z.of_nat i) (seq 0 (Z.to_nat (b - a))).

Section Fetch.
Variable sv : Services.
Variable station_id : option string.
Variable token : string.

(** The [params] of one page request; the two dates stand for the strings
    [f"{year}-01-01"] and [f"{year}-12-31"]. *)
Definition page_params (year offset : Z) : DataQuery :=
  mkDataQuery token "GHCND" station_id "PRCP"
    (mkTimestamp year 1 1) (mkTimestamp year 12 31)
    RESULTS_PER_PAGE offset "metric".

(** The [while True] loop of one year, entered with the pages gathered so
    far; [fuel] bounds the number of iterations. *)
Fixpoint pages (fuel : nat) (year offset : Z) (all_data : list Observation)
    : Run (list Observation) :=
  match fuel with
  | O => ([], Running)
  | S fuel' =>
      let params := page_params year offset in
      response <- requests_get GetData (data_api sv) params ;;
      raise_for_status response ;;;
      batch <- results_of response ;;
      if Pandas.empty batch then ret all_data
      else
        let all_data := all_data ++ batch in
        let offset := offset + RESULTS_PER_PAGE in
        emit (Sleep 200) ;;;
        pages fuel' year offset all_data
  end.

Fixpoint for_years (fuel : nat) (years : list Z) (all_data : list Observation)
    : Run (list Observation) :=
  match years with
  | [] => ret all_data
  | year :: rest =>
      all_data <- pages fuel year 1 all_data ;;
      for_years fuel rest all_data
  end.

Definition fetch_precipitation_data (fuel : nat) (start_year end_year : Z)
    : Run (list Observation) :=
  for_years fuel (range start_year (end_year + 1)) [].
End Fetch.

(** ** Main execution block *)

Record Inputs : Set := mkInputs {
  NOAA_API_TOKEN : string;
  address        : string;
  start_year     : Z;
  end_year       : Z;
  threshold_in   : float;
  run_button     : bool
}.

(** The body of the [try].  The [st.spinner] blocks only decorate the page
    while a stage runs and leave no event; each call of a core function is
    recorded just before it is made. *)
Definition analysis (sv : Services) (fuel : nat) (inp : Inputs) : Run unit :=
  emit (Call_get_coordinates (address inp)) ;;;
  location <- get_coordinates sv (address inp) ;;
  let (lat, lon) := location : float * float in
  emit (Call_find_nearest_station lat lon (NOAA_API_TOKEN inp)) ;;;
  station_id <- find_nearest_station sv lat lon (NOAA_API_TOKEN inp) ;;
  emit (Call_fetch_precipitation_data station_id (NOAA_API_TOKEN inp)
          (start_year inp) (end_year inp)) ;;;
  data <- fetch_precipitation_data sv station_id (NOAA_API_TOKEN inp) fuel
            (start_year inp) (end_year inp) ;;
  emit (Call_process_data data (threshold_in inp)) ;;;
  match process_data data (threshold_in inp) with
  | Some result =>
      emit St_success ;;;
      emit (St_subheader (threshold_in inp)) ;;;
      emit (St_dataframe result) ;;;
      emit (St_download_button result (start_year inp) (end_year inp))
  | None =>
      emit (St_warning "No qualifying rain days found in the selected time period.")
  end.

(** [if run_button: try: ... except Exception as e: st.error(...)]: what one
    run of the script does. *)
Definition main (sv : Services) (fuel : nat) (inp : Inputs) : list Event :=
  if run_button inp then
    match analysis sv fuel inp with
    | (tr, Raised e) => tr ++ [St_error e]
    | (tr, _) => tr
    end
  else [].

(** Events by which a run hands records to the aggregator or shows a
    table. *)
Definition uses_records (ev : Event) : bool :=
  match ev with
  | Call_process_data _ _ | St_success | St_subheader _
  | St_dataframe _ | St_download_button _ _ _ => true
  | _ => false
  end.

(** ** Sample data *)

Definition obs (y m d : Z) (v : float) : Observation :=
  mkObservation (mkTimestamp y m d) v "GHCND:USW00014842".

Definition springfield : Inputs :=
  mkInputs "token" "123 Main St, Springfield, IL" 2020 2021 0.5%float true.

(** A world in which the address resolves, no station is near, and the
    observation endpoint has nothing to say. *)
Definition sv_no_station : Services :=
  mkServices
    (fun _ => GeoLocation (Some (39.78, -89.65)%float))
    (fun _ => Response 200 (Some []))
    (fun _ => Response 200 (Some [])).

(** A world whose observation endpoint fails on the second page of 2020. *)
Definition sv_failing : Services :=
  mkServices
    (fun _ => GeoLocation (Some (39.78, -89.65)%float))
    (fun _ => Response 200 (Some ["GHCND:USW00014842"]))
    (fun q =>
       if dq_offset q =? 1 then Response 200 (Some [obs 2020 6 1 15.0])
       else Response 503 None).

(** A world where nothing can be geocoded. *)
Definition sv_nowhere : Services :=
  mkServices
    (fun _ => GeoLocation None)
    (fun _ => Response 200 (Some ["GHCND:USW00014842"]))
    (fun _ => Response 200 (Some [])).

(** A world whose station has exactly one full page of observations a year. *)
Definition full_page : list Observation := repeat (obs 2020 6 1 15.0) 1000.

Definition sv_one_page : Services :=
  mkServices
    (fun _ => GeoLocation (Some (39.78, -89.65)%float))
    (fun _ => Response 200 (Some ["GHCND:USW00014842"]))
    (fun q => if dq_offset q =? 1 then Response 200 (Some full_page)
              else Response 200 (Some [])).

(** Three qualifying June days in 2020, five in 2022, and a June 2021 that
    stayed below the threshold. *)
Definition june_records : list Observation :=
  [obs 2020 6 1 15.0; obs 2020 6 2 20.0; obs 2020 6 3 13.0;
   obs 2021 6 5 10.0; obs 2021 6 6 2.5;
   obs 2022 6 1 30.0; obs 2022 6 2 14.0; obs 2022 6 3 25.4;
   obs 2022 6 4 40.0; obs 2022 6 5 12.8; obs 2022 6 6 0.0].

(** The number of qualifying days of one year and month, in the words of
    the specification: the records dated in that year and month whose value,
    times 0.0393701, is at least the threshold. *)
Definition qualifying_days (data : list Observation) (threshold : float)
    (year month : Z) : nat :=
  List.length
    (filter (fun r => (ts_year (date r) =? year)
                      && (ts_month (date r) =? month)
                      && (threshold <=? value r * 0.0393701)%float)
            data).

(** One qualifying June day in 2019, one in 2020 and two in 2021. *)
Definition uneven_junes : list Observation :=
  [obs 2019 6 1 20.0; obs 2020 6 1 20.0; obs 2020 6 2 1.0;
   obs 2021 6 1 20.0; obs 2021 6 2 20.0].

(** A world whose observation endpoint answers the second page of a year
    with status 300 (Multiple Choices) and a body without results. *)
Definition sv_multiple_choices : Services :=
  mkServices
    (fun _ => GeoLocation (Some (39.78, -89.65)%float))
    (fun _ => Response 200 (Some ["GHCND:USW00014842"]))
    (fun q =>
       if dq_offset q =? 1
       then Response 200 (Some [obs (ts_year (dq_startdate q)) 6 1 15.0])
       else Response 300 (Some [])).

(** ** Vocabulary for further properties *)

(** The offset of the page with index [i] (counting from 0). *)
Definition page_offset (i : nat) : Z := 1 + RESULTS_PER_PAGE * Z.of_nat i.

(** What the loop of one year leaves in the trace for [n] non-empty pages
    from page [first] on: a request and a pause each. *)
Definition full_pages_trace (station_id : option string) (token : string)
    (year : Z) (first n : nat) : list Event :=
  flat_map
    (fun i => [GetData (page_params station_id token year (page_offset i));
               Sleep 200])
    (seq first n).

Definition is_request (ev : Event) : bool :=
  match ev with GetData _ => true | _ => false end.

Definition is_sleep (ev : Event) : bool :=
  match ev with Sleep _ => true | _ => false end.

(** [f] applied to what a computation returns. *)
Definition outcome_map {A B : Type} (f : A -> B) (o : outcome A) : outcome B :=
  match o with
  | Returned a => Returned (f a)
  | Raised e => Raised e
  | Running => Running
  end.

(** A world whose station has three observations a year, served as a page of
    two and a page of one. *)
Definition sv_short_pages : Services :=
  mkServices
    (fun _ => GeoLocation (Some (39.78, -89.65)%float))
    (fun _ => Response 200 (Some ["GHCND:USW00014842"]))
    (fun q =>
       let y := ts_year (dq_startdate q) in
       if dq_offset q =? 1 then Response 200 (Some [obs y 6 1 15.0; obs y 6 2 20.0])
       else if dq_offset q =? 1001 then Response 200 (Some [obs y 6 3 10.0])
       else Response 200 (Some [])).

(** A world whose observation endpoint ignores the offset: every page is the
    same single record. *)
Definition sv_endless : Services :=
  mkServices
    (fun _ => GeoLocation (Some (39.78, -89.65)%float))
    (fun _ => Response 200 (Some ["GHCND:USW00014842"]))
    (fun _ => Response 200 (Some [obs 2020 6 1 15.0])).

(** The four stages of a run. *)
Inductive Stage : Set :=
| Geocoder | StationLocator | ObservationFetcher | Aggregator.

Definition stage_called (ev : Event) : option Stage :=
  match ev with
  | Call_get_coordinates _ => Some Geocoder
  | Call_find_nearest_station _ _ _ => Some StationLocator
  | Call_fetch_precipitation_data _ _ _ _ => Some ObservationFetcher
  | Call_process_data _ _ => Some Aggregator
  | _ => None
  end.

(** The stages a trace calls, in the order of the calls. *)
Fixpoint stages (tr : list Event) : list Stage :=
  match tr with
  | [] => []
  | ev :: rest =>
      match stage_called ev with
      | Some s => s :: stages rest
      | None => stages rest
      end
  end.

(** What the page shows once the aggregator has answered. *)
Definition shown (inp : Inputs) (result : option Table) : list Event :=
  match result with
  | Some t =>
      [St_success; St_subheader (threshold_in inp); St_dataframe t;
       St_download_button t (start_year inp) (end_year inp)]
  | None =>
      [St_warning "No qualifying rain days found in the selected time period."]
  end.

(** What a run does after the fetcher is done. *)
Definition after_fetch (inp : Inputs) (o : outcome (list Observation))
    : list Event :=
  match o with
  | Returned data =>
      Call_process_data data (threshold_in inp)
        :: shown inp (process_data data (threshold_in inp))
  | Raised e => [St_error e]
  | Running => []
  end.

(** Events that put something on the page. *)
Definition is_display (ev : Event) : bool :=
  match ev with
  | St_success | St_subheader _ | St_dataframe _ | St_download_button _ _ _
  | St_warning _ | St_error _ => true
  | _ => false
  end.

(** A world whose station search rejects the token. *)
Definition sv_unauthorized : Services :=
  mkServices
    (fun _ => GeoLocation (Some (39.78, -89.65)%float))
    (fun _ => Response 401 None)
    (fun _ => Response 401 None).

(** What the aggregator reads of a record. *)
Definition read_fields (r : Observation) : (Z * Z) * float :=
  (year_month r, value r).

(** * Properties *)

(** ** The observation fetcher *)

Lemma range_nil (a b : Z) : b <= a -> range a b = [].
Proof.
  intros H. unfold range.
  replace (Z.to_nat (b - a)) with 0%nat by lia. reflexivity.
Qed.

Lemma range_one (a : Z) : range a (a + 1) = [a].
Proof.
  unfold range. replace (a + 1 - a) with 1 by lia.
  simpl. f_equal. lia.
Qed.

(** C10. When [start_year] exceeds [end_year] the year loop has nothing to
    iterate over: no request is issued and the empty list is returned,
    whatever the loop bound. *)
Theorem fetch_reversed_range_is_empty :
  forall sv station_id token fuel start_year end_year,
    end_year < start_year ->
    fetch_precipitation_data sv station_id token fuel start_year end_year
    = ([], Returned []).
Proof.
  intros sv sid tok fuel s e H.
  unfold fetch_precipitation_data.
  rewrite range_nil by lia. reflexivity.
Qed.

Lemma fetch_reversed_range_is_empty_witness :
  2020 < 2021 /\
  fetch_precipitation_data sv_failing (Some "GHCND:USW00014842") "token" 0 2021 2020
  = ([], Returned []).
Proof.
  split; [lia | apply fetch_reversed_range_is_empty; lia].
Defined.

(** C4. A year whose first page holds 1000 records and whose second page is
    empty costs exactly two requests, at offsets 1 and 1001 (with one pause
    between them), and yields exactly the 1000 records. *)
Theorem fetch_two_pages :
  forall sv station_id token year batch fuel,
    List.length batch = 1000%nat ->
    data_api sv (page_params station_id token year 1)
      = Response 200 (Some batch) ->
    data_api sv (page_params station_id token year 1001)
      = Response 200 (Some []) ->
    (2 <= fuel)%nat ->
    fetch_precipitation_data sv station_id token fuel year year
    = ([GetData (page_params station_id token year 1);
        Sleep 200;
        GetData (page_params station_id token year 1001)],
       Returned batch).
Proof.
  intros sv sid tok year batch fuel Hlen H1 H2 Hfuel.
  destruct fuel as [|[|fuel]]; try lia.
  destruct batch as [|r batch]; [discriminate Hlen|].
  unfold fetch_precipitation_data. rewrite range_one.
  cbn [for_years pages]. unfold requests_get.
  rewrite H1. cbn.
  change (1 + RESULTS_PER_PAGE) with 1001.
  rewrite H2. cbn. reflexivity.
Qed.

Lemma fetch_two_pages_witness :
  let sid := Some "GHCND:USW00014842" in
  List.length full_page = 1000%nat /\
  data_api sv_one_page (page_params sid "token" 2020 1)
    = Response 200 (Some full_page) /\
  data_api sv_one_page (page_params sid "token" 2020 1001)
    = Response 200 (Some []) /\
  (2 <= 5)%nat /\
  fetch_precipitation_data sv_one_page sid "token" 5 2020 2020
  = ([GetData (page_params sid "token" 2020 1);
      Sleep 200;
      GetData (page_params sid "token" 2020 1001)],
     Returned full_page).
Proof.
  intros sid.
  assert (Hlen : List.length full_page = 1000%nat) by apply repeat_length.
  assert (Hfuel : (2 <= 5)%nat) by lia.
  split; [exact Hlen|].
  split; [reflexivity|]. split; [reflexivity|]. split; [exact Hfuel|].
  exact (fetch_two_pages sv_one_page sid "token" 2020 full_page 5
           Hlen eq_refl eq_refl Hfuel).
Defined.

(** *** Failing pages *)

Lemma raise_for_status_non_success {A} (code : Z) (body : option (list A)) :
  non_success code ->
  raise_for_status (Response code body) = raise (HTTPError code).
Proof.
  unfold non_success, raise_for_status. intros H.
  replace ((400 <=? code) && (code <? 600)) with true; [reflexivity|].
  symmetry. apply andb_true_iff. split; [apply Z.leb_le|apply Z.ltb_lt]; lia.
Qed.

Lemma raise_for_status_success {A} (code : Z) (body : option (list A)) :
  ~ non_success code ->
  raise_for_status (Response code body) = ret tt.
Proof.
  unfold non_success, raise_for_status. intros H.
  destruct (400 <=? code) eqn:E1; destruct (code <? 600) eqn:E2;
    try reflexivity.
  apply Z.leb_le in E1. apply Z.ltb_lt in E2. lia.
Qed.

Section FetchFailure.
Variable sv : Services.
Variable station_id : option string.
Variable token : string.
Variable q : DataQuery.
Variable code : Z.
Variable body : option (list Observation).
Hypothesis Hq : data_api sv q = Response code body.
Hypothesis Hcode : non_success code.

(** Once the request [q] is sent inside a year's loop, the loop is over:
    it raises, and what it had gathered is gone with it. *)
Lemma pages_fail_fast :
  forall fuel year offset all_data,
    In (GetData q) (fst (pages sv station_id token fuel year offset all_data)) ->
    snd (pages sv station_id token fuel year offset all_data)
    = Raised (HTTPError code).
Proof.
  induction fuel as [|fuel IH]; intros year offset all_data Hin.
  - destruct Hin.
  - revert Hin. cbn [pages]. unfold requests_get.
    set (params := page_params station_id token year offset).
    destruct (data_api sv params) as [|c b] eqn:E.
    + cbn. intros [Hp|[]]. injection Hp as Hp. congruence.
    + assert (Hc : non_success c \/ ~ non_success c)
        by (unfold non_success; lia).
      destruct Hc as [Hc|Hc]; cbn [bind emit ret].
      * rewrite raise_for_status_non_success by assumption.
        cbn. intros [Hp|[]]. injection Hp as Hp.
        rewrite Hp, Hq in E. injection E as -> _. reflexivity.
      * rewrite raise_for_status_success by assumption.
        assert (Hne : GetData params <> GetData q).
        { intros Hp. injection Hp as Hp. rewrite Hp, Hq in E.
          injection E as -> _. contradiction. }
        destruct b as [[|r batch]|]; cbn.
        -- intros [Hp|[]]. contradiction.
        -- specialize (IH year (offset + RESULTS_PER_PAGE)
                         (all_data ++ r :: batch)).
           destruct (pages sv station_id token fuel year
                       (offset + RESULTS_PER_PAGE) (all_data ++ r :: batch))
             as [tr o]. cbn in *.
           intros [Hp|[Hp|Hin]]; [contradiction|discriminate|auto].
        -- intros [Hp|[]]. contradiction.
Qed.

Lemma for_years_fail_fast :
  forall fuel years all_data,
    In (GetData q) (fst (for_years sv station_id token fuel years all_data)) ->
    snd (for_years sv station_id token fuel years all_data)
    = Raised (HTTPError code).
Proof.
  intros fuel years. induction years as [|year rest IH]; intros all_data.
  - intros [].
  - cbn [for_years].
    pose proof (pages_fail_fast fuel year 1 all_data) as Hp.
    destruct (pages sv station_id token fuel year 1 all_data) as [tr [d|e|]];
      cbn in *; try exact Hp.
    specialize (IH d).
    destruct (for_years sv station_id token fuel rest d) as [tr' o'].
    cbn in *. intros Hin. apply in_app_or in Hin as [Hin|Hin].
    + specialize (Hp Hin). discriminate.
    + auto.
Qed.

Lemma fetch_fail_fast :
  forall fuel start_year end_year,
    In (GetData q)
      (fst (fetch_precipitation_data sv station_id token fuel start_year end_year)) ->
    snd (fetch_precipitation_data sv station_id token fuel start_year end_year)
    = Raised (HTTPError code).
Proof.
  intros. apply for_years_fail_fast. assumption.
Qed.
End FetchFailure.

Section FetchTrace.
Variable sv : Services.
Variable station_id : option string.
Variable token : string.

(** The fetcher only sends page requests and pauses. *)
Lemma pages_trace :
  forall fuel year offset all_data ev,
    In ev (fst (pages sv station_id token fuel year offset all_data)) ->
    uses_records ev = false.
Proof.
  induction fuel as [|fuel IH]; intros year offset all_data ev.
  - intros [].
  - cbn [pages]. unfold requests_get, raise_for_status.
    destruct (data_api sv (page_params station_id token year offset))
      as [|c [[|r batch]|]]; cbn [bind emit ret raise app];
      try destruct ((400 <=? c) && (c <? 600));
      cbn [bind emit ret raise app fst results_of Pandas.empty];
      try (intros [<-|[]]; reflexivity).
    specialize (IH year (offset + RESULTS_PER_PAGE) (all_data ++ r :: batch) ev).
    destruct (pages sv station_id token fuel year
                (offset + RESULTS_PER_PAGE) (all_data ++ r :: batch)) as [tr o].
    cbn [fst app] in *. intros [<-|[<-|H]]; auto.
Qed.

Lemma fetch_trace :
  forall fuel start_year end_year ev,
    In ev (fst (fetch_precipitation_data sv station_id token fuel
                  start_year end_year)) ->
    uses_records ev = false.
Proof.
  intros fuel s e ev. unfold fetch_precipitation_data.
  generalize (@nil Observation) as all_data.
  induction (range s (e + 1)) as [|year rest IH]; intros all_data.
  - intros [].
  - cbn [for_years].
    pose proof (pages_trace fuel year 1 all_data ev) as Hp.
    destruct (pages sv station_id token fuel year 1 all_data) as [tr [d|x|]];
      cbn [bind fst] in *; try exact Hp.
    specialize (IH d).
    destruct (for_years sv station_id token fuel rest d) as [tr' o'].
    cbn [fst] in *. intros H. apply in_app_or in H as [H|H]; auto.
Qed.
End FetchTrace.

(** ** The pipeline *)

Lemma get_coordinates_trace sv addr :
  fst (get_coordinates sv addr) = [Geocode addr].
Proof.
  unfold get_coordinates. destruct (geocode sv addr) as [|[loc|]]; reflexivity.
Qed.

Lemma find_nearest_station_trace sv lat lon token :
  fst (find_nearest_station sv lat lon token)
  = [GetStations (station_params lat lon token)].
Proof.
  unfold find_nearest_station, requests_get, raise_for_status.
  destruct (stations_api sv (station_params lat lon token)) as [|c [l|]];
    cbn; try reflexivity;
    destruct ((400 <=? c) && (c <? 600)); reflexivity.
Qed.

(** Membership in a trace whose listed events all differ from the one sought. *)
Ltac skip_events H :=
  cbn [In app] in H;
  repeat (destruct H as [H|H]; [discriminate H|]);
  try (apply in_app_or in H).

(** C8. When the geocoder has no match, [get_coordinates] raises its
    [ValueError]; the run shows that error and ends there, before any
    station lookup. *)
Theorem geocode_failure_stops_pipeline :
  forall sv fuel inp,
    run_button inp = true ->
    geocode sv (address inp) = GeoLocation None ->
    get_coordinates sv (address inp)
      = ([Geocode (address inp)], Raised (ValueError "Could not geocode address."))
    /\ main sv fuel inp
       = [Call_get_coordinates (address inp);
          Geocode (address inp);
          St_error (ValueError "Could not geocode address.")]
    /\ (forall lat lon token,
          ~ In (Call_find_nearest_station lat lon token) (main sv fuel inp))
    /\ (forall q, ~ In (GetStations q) (main sv fuel inp)).
Proof.
  intros sv fuel inp Hrun Hgeo.
  assert (Hmain : main sv fuel inp
       = [Call_get_coordinates (address inp);
          Geocode (address inp);
          St_error (ValueError "Could not geocode address.")]).
  { unfold main, analysis, get_coordinates. rewrite Hrun, Hgeo. reflexivity. }
  split; [unfold get_coordinates; rewrite Hgeo; reflexivity|].
  split; [exact Hmain|].
  rewrite Hmain. split.
  - intros lat lon token [H|[H|[H|[]]]]; discriminate.
  - intros q [H|[H|[H|[]]]]; discriminate.
Qed.

Lemma geocode_failure_stops_pipeline_witness :
  run_button springfield = true /\
  geocode sv_nowhere (address springfield) = GeoLocation None /\
  main sv_nowhere 10 springfield
  = [Call_get_coordinates "123 Main St, Springfield, IL";
     Geocode "123 Main St, Springfield, IL";
     St_error (ValueError "Could not geocode address.")].
Proof.
  split; [reflexivity|]. split; [reflexivity|].
  exact (proj1 (proj2
    (geocode_failure_stops_pipeline sv_nowhere 10 springfield eq_refl eq_refl))).
Defined.

(** C7. If a page request gets a client or server error status, the fetcher
    raises [HTTPError] (so no record sequence comes back), the run ends by
    showing that error, and nothing in the run aggregates or displays
    records. *)
Theorem page_failure_aborts_run :
  forall sv fuel inp q code body,
    data_api sv q = Response code body ->
    non_success code ->
    In (GetData q) (main sv fuel inp) ->
    exists station_id before requests,
      fetch_precipitation_data sv station_id (NOAA_API_TOKEN inp) fuel
        (start_year inp) (end_year inp)
        = (requests, Raised (HTTPError code))
      /\ main sv fuel inp = before ++ requests ++ [St_error (HTTPError code)]
      /\ (forall ev, In ev (main sv fuel inp) -> uses_records ev = false).
Proof.
  intros sv fuel inp q code body Hq Hcode.
  unfold main, analysis.
  destruct (run_button inp); [|intros []].
  pose proof (get_coordinates_trace sv (address inp)) as Hgeo.
  destruct (get_coordinates sv (address inp)) as [tr0 o0].
  cbn [fst] in Hgeo. subst tr0.
  destruct o0 as [[lat lon]|e|]; cbn [bind emit ret raise app];
    try (intros H; skip_events H; destruct H).
  pose proof (find_nearest_station_trace sv lat lon (NOAA_API_TOKEN inp)) as Hst.
  destruct (find_nearest_station sv lat lon (NOAA_API_TOKEN inp)) as [tr1 o1].
  cbn [fst] in Hst. subst tr1.
  destruct o1 as [sid|e|]; cbn [bind emit ret raise app];
    try (intros H; skip_events H; destruct H).
  pose proof (fetch_fail_fast sv sid (NOAA_API_TOKEN inp) q code body Hq Hcode
                fuel (start_year inp) (end_year inp)) as Hff.
  pose proof (fetch_trace sv sid (NOAA_API_TOKEN inp) fuel
                (start_year inp) (end_year inp)) as Hquiet.
  destruct (fetch_precipitation_data sv sid (NOAA_API_TOKEN inp) fuel
              (start_year inp) (end_year inp)) as [tr o] eqn:Hfetch.
  cbn [fst snd] in Hff, Hquiet.
  destruct o as [data|e|]; cbn [bind emit ret raise app].
  - (* the fetcher returned: it cannot have sent [q] *)
    intros H. exfalso.
    assert (Htr : In (GetData q) tr).
    { destruct (process_data data (threshold_in inp));
        cbn [bind emit ret raise app] in H; skip_events H;
        destruct H as [H|H]; try assumption; skip_events H; destruct H. }
    specialize (Hff Htr). discriminate.
  - (* the fetcher raised *)
    intros H. skip_events H.
    destruct H as [H|H]; [|skip_events H; destruct H].
    specialize (Hff H). injection Hff as ->.
    exists sid. eexists [_; _; _; _; _]. exists tr.
    split; [exact Hfetch|]. split; [reflexivity|].
    intros ev Hev. cbn [In app] in Hev.
    repeat (destruct Hev as [Hev|Hev]; [subst ev; reflexivity|]).
    apply in_app_or in Hev as [Hev|[<-|[]]]; auto.
  - (* the loop bound ran out *)
    intros H. skip_events H.
    specialize (Hff H). discriminate.
Qed.

Lemma page_failure_aborts_run_witness :
  let q := page_params (Some "GHCND:USW00014842") "token" 2020 1001 in
  data_api sv_failing q = Response 503 None /\
  non_success 503 /\
  In (GetData q) (main sv_failing 5 springfield) /\
  exists station_id before requests,
    fetch_precipitation_data sv_failing station_id "token" 5 2020 2021
      = (requests, Raised (HTTPError 503))
    /\ main sv_failing 5 springfield
       = before ++ requests ++ [St_error (HTTPError 503)]
    /\ (forall ev, In ev (main sv_failing 5 springfield) ->
        uses_records ev = false).
Proof.
  intros q.
  assert (Hq : data_api sv_failing q = Response 503 None) by reflexivity.
  assert (Hcode : non_success 503) by (unfold non_success; lia).
  assert (Hin : In (GetData q) (main sv_failing 5 springfield))
    by (vm_compute; repeat (first [left; reflexivity | right])).
  split; [exact Hq|]. split; [exact Hcode|]. split; [exact Hin|].
  exact (page_failure_aborts_run sv_failing 5 springfield q 503 None
           Hq Hcode Hin).
Defined.

(** C7 (as stated, it fails). A page answered with status 300 is not a
    success, yet [raise_for_status] lets it through: its body without
    results ends the year like an empty page, no error is raised, and the
    records gathered so far are returned, aggregated and shown. *)
Lemma status_300_page_is_accepted :
  let sid := Some "GHCND:USW00014842" in
  let q := page_params sid "token" 2020 1001 in
  data_api sv_multiple_choices q = Response 300 (Some [])
  /\ ~ (200 <= 300 < 300)
  /\ In (GetData q) (main sv_multiple_choices 5 springfield)
  /\ snd (fetch_precipitation_data sv_multiple_choices sid "token" 5 2020 2021)
     = Returned [obs 2020 6 1 15.0; obs 2021 6 1 15.0]
  /\ main sv_multiple_choices 5 springfield
     = [Call_get_coordinates "123 Main St, Springfield, IL";
        Geocode "123 Main St, Springfield, IL";
        Call_find_nearest_station 39.78 (-89.65) "token";
        GetStations (station_params 39.78 (-89.65) "token");
        Call_fetch_precipitation_data sid "token" 2020 2021;
        GetData (page_params sid "token" 2020 1); Sleep 200;
        GetData (page_params sid "token" 2020 1001);
        GetData (page_params sid "token" 2021 1); Sleep 200;
        GetData (page_params sid "token" 2021 1001);
        Call_process_data [obs 2020 6 1 15.0; obs 2021 6 1 15.0] 0.5;
        St_success;
        St_subheader 0.5;
        St_dataframe (mkTable 0.5 [(Some "June", 1.0%float)]);
        St_download_button (mkTable 0.5 [(Some "June", 1.0%float)]) 2020 2021].
Proof.
  intros sid q.
  split; [reflexivity|]. split; [lia|].
  split; [vm_compute; repeat (first [left; reflexivity | right])|].
  split; reflexivity.
Qed.

(** C1 (the code departs from it). With no station near, the run neither
    stops nor says so: [fetch_precipitation_data] is called with [None] for a
    station, one page is requested per year without a station id, and the run
    ends on the message of the aggregator. *)
Theorem no_station_run :
  find_nearest_station sv_no_station 39.78 (-89.65) "token"
    = ([GetStations (station_params 39.78 (-89.65) "token")], Returned None)
  /\ main sv_no_station 5 springfield
     = [Call_get_coordinates "123 Main St, Springfield, IL";
        Geocode "123 Main St, Springfield, IL";
        Call_find_nearest_station 39.78 (-89.65) "token";
        GetStations (station_params 39.78 (-89.65) "token");
        Call_fetch_precipitation_data None "token" 2020 2021;
        GetData (page_params None "token" 2020 1);
        GetData (page_params None "token" 2021 1);
        Call_process_data [] 0.5;
        St_warning "No qualifying rain days found in the selected time period."].
Proof.
  split; reflexivity.
Qed.

(** ** The aggregator *)

(** C2 (the code departs from it). The emptiness test of [process_data] comes
    before the threshold filter: no input gives [None], but an input none of
    whose records reaches the threshold gives a table without rows. *)
Theorem all_filtered_gives_empty_table :
  process_data [] 0.5 = None
  /\ threshold_filter 0.5 (convert_units [obs 2021 6 9 5.0]) = []
  /\ process_data [obs 2021 6 9 5.0] 0.5 = Some (mkTable 0.5 []).
Proof.
  repeat split; reflexivity.
Qed.

(** Whatever the input, an empty filtered frame after a non-empty input
    yields the table without rows. *)
Lemma process_data_filtered_out (data : list Observation) (threshold : float) :
  data <> [] ->
  threshold_filter threshold (convert_units data) = [] ->
  process_data data threshold = Some (mkTable threshold []).
Proof.
  intros Hne Hf. unfold process_data.
  destruct data as [|r data]; [contradiction|].
  cbn [Pandas.empty]. rewrite Hf. reflexivity.
Qed.

Lemma convert_units_map (df : list Observation) :
  convert_units df = map in_inches df.
Proof. reflexivity. Qed.

(** C6. Conversion multiplies each value by the constant 0.0393701 and
    leaves the rest of the record alone; 25.4 mm come out within 1e-4 of one
    inch. *)
Theorem unit_conversion_exact :
  MM_TO_INCHES = 0.0393701%float
  /\ (forall df,
        map value (convert_units df)
        = map (fun r => (value r * 0.0393701)%float) df
        /\ map date (convert_units df) = map date df
        /\ map station (convert_units df) = map station df)
  /\ (forall y m d,
        map value (convert_units [obs y m d 25.4])
        = [(25.4 * 0.0393701)%float])
  /\ (abs (25.4 * 0.0393701 - 1.0) <=? 1e-4)%float = true.
Proof.
  split; [reflexivity|]. split; [|split; [reflexivity|reflexivity]].
  intros df. unfold convert_units. rewrite !map_map. cbn [value date station].
  repeat split; reflexivity.
Qed.

(** *** Comparing floats *)

Lemma SFeqb_SFleb (a b : spec_float) :
  SFeqb a b = true -> SFleb b a = true.
Proof.
  unfold SFeqb, SFleb, SFcompare.
  destruct a as [sa|sa| |sa ma ea], b as [sb|sb| |sb mb eb];
    try destruct sa; try destruct sb; try reflexivity; try discriminate.
  - destruct (Z.compare_spec ea eb) as [He|He|He]; try discriminate.
    subst eb. rewrite Z.compare_refl.
    change (Pos.compare_cont Eq ma mb) with (Pos.compare ma mb).
    change (Pos.compare_cont Eq mb ma) with (Pos.compare mb ma).
    destruct (Pos.compare_spec ma mb) as [Hm|Hm|Hm]; try discriminate.
    subst mb. rewrite Pos.compare_refl. reflexivity.
  - destruct (Z.compare_spec ea eb) as [He|He|He]; try discriminate.
    subst eb. rewrite Z.compare_refl.
    change (Pos.compare_cont Eq ma mb) with (Pos.compare ma mb).
    change (Pos.compare_cont Eq mb ma) with (Pos.compare mb ma).
    destruct (Pos.compare_spec ma mb) as [Hm|Hm|Hm]; try discriminate.
    subst mb. rewrite Pos.compare_refl. reflexivity.
Qed.

(** IEEE equality entails [>=]. *)
Lemma float_eqb_leb (x y : float) :
  (x =? y)%float = true -> (y <=? x)%float = true.
Proof.
  rewrite FloatAxioms.eqb_spec, FloatAxioms.leb_spec. apply SFeqb_SFleb.
Qed.

(** C5. A record is in the filtered frame exactly when its converted value
    is at least the threshold; a converted value equal to the threshold is
    kept. *)
Theorem threshold_filter_correct :
  forall data threshold r,
    In r data ->
    (In (in_inches r) (threshold_filter threshold (convert_units data))
     <-> (threshold <=? value r * 0.0393701)%float = true)
    /\ ((value r * 0.0393701 =? threshold)%float = true ->
        In (in_inches r) (threshold_filter threshold (convert_units data))).
Proof.
  intros data threshold r Hin.
  assert (Hiff : In (in_inches r) (threshold_filter threshold (convert_units data))
                 <-> (threshold <=? value r * 0.0393701)%float = true).
  { unfold threshold_filter. rewrite filter_In, convert_units_map.
    split; [intros [_ H]; exact H|].
    intros H. split; [apply in_map; exact Hin|exact H]. }
  split; [exact Hiff|].
  intros Heq. apply Hiff. apply float_eqb_leb. exact Heq.
Qed.

Lemma threshold_filter_correct_witness :
  let r := obs 2020 6 1 15.0 in
  let data := [r; obs 2020 6 3 10.0] in
  let threshold := (15.0 * 0.0393701)%float in
  In r data /\
  (value r * 0.0393701 =? threshold)%float = true /\
  In (in_inches r) (threshold_filter threshold (convert_units data)).
Proof.
  intros r data threshold.
  assert (Hin : In r data) by (left; reflexivity).
  split; [exact Hin|]. split; [reflexivity|].
  exact (proj2 (threshold_filter_correct data threshold r Hin) eq_refl).
Defined.

(** *** Grouping *)

Section GroupByFacts.
Context {K : Type} (cmp : K -> K -> comparison) `{!KeyOrder cmp}.

Local Abbreviation lt := (fun a b => cmp a b = Lt).
Local Abbreviation insert_key := (Pandas.insert_key cmp).
Local Abbreviation sorted_keys := (Pandas.sorted_keys cmp).
Local Abbreviation key_eqb := (Pandas.key_eqb cmp).

Lemma cmp_refl (a : K) : cmp a a = Eq.
Proof.
  pose proof (cmp_antisym a a) as H.
  destruct (cmp a a); try reflexivity; discriminate.
Qed.

Lemma cmp_gt_lt (a b : K) : cmp a b = Gt -> cmp b a = Lt.
Proof.
  intros H. rewrite cmp_antisym, H. reflexivity.
Qed.

Lemma key_eqb_eq (a b : K) : key_eqb a b = true <-> a = b.
Proof.
  unfold Pandas.key_eqb. split.
  - destruct (cmp a b) eqn:E; try discriminate. intros _. exact (cmp_eq a b E).
  - intros ->. rewrite cmp_refl. reflexivity.
Qed.

Lemma insert_key_In (k x : K) (ks : list K) :
  In x (insert_key k ks) <-> x = k \/ In x ks.
Proof.
  induction ks as [|h t IH]; cbn [Pandas.insert_key].
  - cbn. intuition.
  - destruct (cmp k h) eqn:E; cbn [In].
    + apply cmp_eq in E. subst h. intuition.
    + intuition.
    + rewrite IH. intuition.
Qed.

Lemma sorted_keys_In (x : K) (ks : list K) :
  In x (sorted_keys ks) <-> In x ks.
Proof.
  induction ks as [|k t IH]; cbn [Pandas.sorted_keys fold_right In].
  - reflexivity.
  - fold (sorted_keys t). rewrite insert_key_In, IH. intuition.
Qed.

Lemma insert_key_sorted (k : K) (ks : list K) :
  StronglySorted lt ks -> StronglySorted lt (insert_key k ks).
Proof.
  induction 1 as [|h t Hs IH Hh]; cbn [Pandas.insert_key].
  - repeat constructor.
  - destruct (cmp k h) eqn:E.
    + constructor; assumption.
    + constructor; [constructor; assumption|].
      constructor; [exact E|].
      rewrite Forall_forall in *. intros x Hx.
      apply (cmp_trans k h x); auto.
    + constructor; [exact IH|].
      rewrite Forall_forall in *. intros x Hx.
      apply insert_key_In in Hx as [->|Hx]; [apply cmp_gt_lt; exact E|auto].
Qed.

Lemma sorted_keys_sorted (ks : list K) : StronglySorted lt (sorted_keys ks).
Proof.
  induction ks as [|k t IH]; cbn [Pandas.sorted_keys fold_right].
  - constructor.
  - apply insert_key_sorted. exact IH.
Qed.

Lemma lt_irrefl (a : K) : cmp a a <> Lt.
Proof. rewrite cmp_refl. discriminate. Qed.

(** A strictly ascending list is determined by its elements. *)
Lemma sorted_unique (l1 l2 : list K) :
  StronglySorted lt l1 -> StronglySorted lt l2 ->
  (forall x, In x l1 <-> In x l2) -> l1 = l2.
Proof.
  intros H1. revert l2.
  induction H1 as [|a t1 Hs1 IH Ha]; intros l2 H2 Hin.
  - destruct l2 as [|b t2]; [reflexivity|].
    destruct (proj2 (Hin b) (or_introl eq_refl)).
  - destruct H2 as [|b t2 Hs2 Hb].
    + destruct (proj1 (Hin a) (or_introl eq_refl)).
    + rewrite Forall_forall in Ha, Hb.
      assert (Hab : a = b).
      { destruct (proj1 (Hin a) (or_introl eq_refl)) as [E|E]; [auto|].
        destruct (proj2 (Hin b) (or_introl eq_refl)) as [E'|E']; [auto|].
        exfalso. apply (lt_irrefl a). apply (cmp_trans a b a); auto. }
      subst b. f_equal. apply IH; [exact Hs2|].
      intros x. split; intros Hx.
      * destruct (proj1 (Hin x) (or_intror Hx)) as [E|E]; [|exact E].
        subst x. exfalso. apply (lt_irrefl a). auto.
      * destruct (proj2 (Hin x) (or_intror Hx)) as [E|E]; [|exact E].
        subst x. exfalso. apply (lt_irrefl a). auto.
Qed.

Lemma sorted_keys_perm (l1 l2 : list K) :
  Permutation l1 l2 -> sorted_keys l1 = sorted_keys l2.
Proof.
  intros HP. apply sorted_unique; try apply sorted_keys_sorted.
  intros x. rewrite !sorted_keys_In.
  split; apply Permutation_in; [exact HP|symmetry; exact HP].
Qed.

Lemma filter_perm {R : Type} (p : R -> bool) (l1 l2 : list R) :
  Permutation l1 l2 -> Permutation (filter p l1) (filter p l2).
Proof.
  induction 1 as [|x l l' HP IH|x y l|l l' l'' HP1 IH1 HP2 IH2]; cbn [filter].
  - constructor.
  - destruct (p x); [apply perm_skip|]; exact IH.
  - destruct (p x), (p y);
      first [apply perm_swap | apply Permutation_refl].
  - eapply Permutation_trans; eassumption.
Qed.

Lemma groupby_perm {R A : Type} (key : R -> K) (agg : list R -> A)
    (f1 f2 : list R) :
  (forall g1 g2, Permutation g1 g2 -> agg g1 = agg g2) ->
  Permutation f1 f2 ->
  Pandas.groupby cmp key agg f1 = Pandas.groupby cmp key agg f2.
Proof.
  intros Hagg HP. unfold Pandas.groupby.
  rewrite (sorted_keys_perm (map key f1) (map key f2))
    by (apply Permutation_map; exact HP).
  apply map_ext. intros k. f_equal. apply Hagg.
  apply filter_perm. exact HP.
Qed.

Lemma groupby_In {R A : Type} (key : R -> K) (agg : list R -> A)
    (frame : list R) (k : K) (a : A) :
  In (k, a) (Pandas.groupby cmp key agg frame) <->
  In k (map key frame)
  /\ a = agg (filter (fun r => key_eqb (key r) k) frame).
Proof.
  unfold Pandas.groupby. rewrite in_map_iff. split.
  - intros (k' & E & Hk). injection E as <- <-.
    apply (proj1 (sorted_keys_In _ _)) in Hk. split; [exact Hk|reflexivity].
  - intros (Hk & ->). exists k. split; [reflexivity|].
    apply (proj2 (sorted_keys_In _ _)). exact Hk.
Qed.

Lemma groupby_keys {R A : Type} (key : R -> K) (agg : list R -> A)
    (frame : list R) :
  map fst (Pandas.groupby cmp key agg frame) = sorted_keys (map key frame).
Proof.
  unfold Pandas.groupby. rewrite map_map. cbn [fst]. apply map_id.
Qed.
End GroupByFacts.

(** *** The two key orders of the aggregator *)

#[export] Instance Z_compare_order : KeyOrder Z.compare.
Proof.
  split.
  - exact Z.compare_eq.
  - intros a b. apply Z.compare_antisym.
  - intros a b c. rewrite !Z.compare_lt_iff. lia.
Qed.

#[export] Instance ym_compare_order : KeyOrder ym_compare.
Proof.
  split.
  - intros [y1 m1] [y2 m2]. unfold ym_compare. cbn [fst snd].
    destruct (Z.compare_spec y1 y2) as [Hy|Hy|Hy]; try discriminate.
    intros Hm. apply Z.compare_eq in Hm. congruence.
  - intros [y1 m1] [y2 m2]. unfold ym_compare. cbn [fst snd].
    rewrite (Z.compare_antisym y1 y2), (Z.compare_antisym m1 m2).
    destruct (y1 ?= y2); reflexivity.
  - intros [y1 m1] [y2 m2] [y3 m3]. unfold ym_compare. cbn [fst snd].
    destruct (Z.compare_spec y1 y2), (Z.compare_spec y2 y3),
      (Z.compare_spec y1 y3); rewrite ?Z.compare_lt_iff;
      try discriminate; try lia; auto.
Qed.

Lemma empty_perm {R : Type} (l1 l2 : list R) :
  Permutation l1 l2 -> Pandas.empty l1 = Pandas.empty l2.
Proof.
  intros HP. destruct l1, l2; try reflexivity.
  - apply Permutation_nil in HP. discriminate.
  - symmetry in HP. apply Permutation_nil in HP. discriminate.
Qed.

Lemma monthly_counts_perm (df1 df2 : list Observation) :
  Permutation df1 df2 -> monthly_counts df1 = monthly_counts df2.
Proof.
  apply groupby_perm; [exact _|].
  intros g1 g2. apply Permutation_length.
Qed.

(** C9. Reordering the records changes nothing: the same rows come out in
    the same order. *)
Theorem process_data_order_independent :
  forall data1 data2 threshold,
    Permutation data1 data2 ->
    process_data data1 threshold = process_data data2 threshold.
Proof.
  intros data1 data2 threshold HP. unfold process_data.
  rewrite (empty_perm data1 data2 HP).
  destruct (Pandas.empty data2); [reflexivity|].
  rewrite (monthly_counts_perm
             (threshold_filter threshold (convert_units data1))
             (threshold_filter threshold (convert_units data2))).
  - reflexivity.
  - apply filter_perm. apply Permutation_map. exact HP.
Qed.

Lemma process_data_order_independent_witness :
  let data1 := [obs 2021 6 1 30.0; obs 2020 6 1 15.0; obs 2020 7 2 20.0] in
  let data2 := [obs 2020 7 2 20.0; obs 2021 6 1 30.0; obs 2020 6 1 15.0] in
  Permutation data1 data2 /\
  process_data data1 0.5 = process_data data2 0.5.
Proof.
  intros data1 data2.
  assert (HP : Permutation data1 data2).
  { unfold data1, data2.
    apply Permutation_sym.
    apply (Permutation_cons_app [_; _] []). apply Permutation_refl. }
  split; [exact HP|].
  exact (process_data_order_independent data1 data2 0.5 HP).
Defined.

(** *** What the two groupings hold *)

Lemma StronglySorted_filter {A : Type} (R : A -> A -> Prop) (p : A -> bool)
    (l : list A) :
  StronglySorted R l -> StronglySorted R (filter p l).
Proof.
  induction 1 as [|a l Hs IH Ha]; cbn [filter]; [constructor|].
  destruct (p a); [|exact IH].
  constructor; [exact IH|].
  rewrite Forall_forall in *. intros x Hx.
  apply filter_In in Hx as [Hx _]. auto.
Qed.

Lemma StronglySorted_map_in {A B : Type} (R : A -> A -> Prop)
    (R' : B -> B -> Prop) (f : A -> B) (l : list A) :
  (forall a b, In a l -> In b l -> R a b -> R' (f a) (f b)) ->
  StronglySorted R l -> StronglySorted R' (map f l).
Proof.
  intros Hf Hs. induction Hs as [|a l Hs IH Ha]; cbn [map]; [constructor|].
  constructor.
  - apply IH. intros x y Hx Hy. apply Hf; right; assumption.
  - rewrite Forall_forall in *. intros y Hy.
    apply in_map_iff in Hy as (x & <- & Hx).
    apply Hf; [left; reflexivity|right; exact Hx|auto].
Qed.

Lemma days_in_pos (df : list Observation) (y m : Z) :
  (0 < days_in df y m)%nat <-> In (y, m) (map year_month df).
Proof.
  unfold days_in. rewrite in_map_iff. split.
  - intros Hpos.
    destruct (filter _ df) as [|r g] eqn:E; [cbn in Hpos; lia|].
    assert (Hr : In r (r :: g)) by (left; reflexivity).
    rewrite <- E in Hr. apply filter_In in Hr as [Hr Hk].
    apply (key_eqb_eq ym_compare) in Hk.
    exists r. auto.
  - intros (r & Hk & Hr).
    assert (Hf : In r (filter (fun r => Pandas.key_eqb ym_compare
                                          (year_month r) (y, m)) df)).
    { apply filter_In. split; [exact Hr|].
      apply (key_eqb_eq ym_compare).
      exact Hk. }
    destruct (filter _ df); [destruct Hf|cbn; lia].
Qed.

Lemma monthly_counts_In (df : list Observation) (y m : Z) (n : nat) :
  In ((y, m), n) (monthly_counts df) <->
  (0 < n)%nat /\ n = days_in df y m.
Proof.
  unfold monthly_counts.
  rewrite (groupby_In ym_compare).
  fold (days_in df y m). rewrite <- days_in_pos.
  split; intros [H1 H2]; subst n; auto.
Qed.

Lemma monthly_counts_sorted (df : list Observation) :
  StronglySorted (fun a b => ym_compare a b = Lt) (map fst (monthly_counts df)).
Proof.
  unfold monthly_counts. rewrite groupby_keys.
  apply sorted_keys_sorted. exact _.
Qed.

Lemma month_group_In (df : list Observation) (m : Z) (row : (Z * Z) * nat) :
  In row (month_group (monthly_counts df) m) <->
  snd (fst row) = m
  /\ (0 < snd row)%nat
  /\ snd row = days_in df (fst (fst row)) m.
Proof.
  unfold month_group. rewrite filter_In.
  rewrite (key_eqb_eq Z.compare).
  destruct row as [[y m'] n]. cbn [fst snd].
  rewrite monthly_counts_In. split.
  - intros [[Hn ->] ->]. auto.
  - intros [-> [Hn ->]]. auto.
Qed.

Lemma month_group_years_sorted (df : list Observation) (m : Z) :
  StronglySorted Z.lt
    (map (fun row => fst (fst row)) (month_group (monthly_counts df) m)).
Proof.
  apply StronglySorted_map_in
    with (R := fun a b => ym_compare (fst a) (fst b) = Lt).
  - intros a b Ha Hb.
    apply month_group_In in Ha as [Ha _], Hb as [Hb _].
    destruct a as [[y1 m1] n1], b as [[y2 m2] n2]. cbn [fst snd] in *.
    subst m1 m2. unfold ym_compare. cbn [fst snd].
    rewrite Z.compare_refl.
    destruct (Z.compare_spec y1 y2); try discriminate; auto.
  - unfold month_group. apply StronglySorted_filter.
    pose proof (monthly_counts_sorted df) as Hs.
    induction (monthly_counts df) as [|a l IH]; [constructor|].
    cbn [map] in Hs. apply StronglySorted_inv in Hs as [Hs Ha].
    constructor; [auto|].
    rewrite Forall_forall in *. intros x Hx. apply Ha. apply in_map. exact Hx.
Qed.

(** The general shape of a mean: the days of one month, averaged over the
    years that have qualifying days in it, and over those only. *)
Lemma avg_days_In (df : list Observation) (m : Z) (x : float) :
  In (m, x) (avg_days (monthly_counts df)) ->
  exists years,
    years <> []
    /\ StronglySorted Z.lt years
    /\ (forall y, In y years <-> (0 < days_in df y m)%nat)
    /\ x = Pandas.mean (map (fun y => days_in df y m) years).
Proof.
  unfold avg_days.
  rewrite (groupby_In Z.compare).
  fold (month_group (monthly_counts df) m).
  intros [Hm ->].
  exists (map (fun row => fst (fst row)) (month_group (monthly_counts df) m)).
  split; [|split; [|split]].
  - apply in_map_iff in Hm as (row & Hrow & Hin).
    assert (Hg : In row (month_group (monthly_counts df) m)).
    { apply filter_In. split; [exact Hin|].
      apply (key_eqb_eq Z.compare).
      exact Hrow. }
    destruct (month_group _ m); [destruct Hg|discriminate].
  - apply month_group_years_sorted.
  - intros y. rewrite in_map_iff. split.
    + intros (row & <- & Hrow).
      apply month_group_In in Hrow as (_ & Hpos & Hn). lia.
    + intros Hpos. exists ((y, m), days_in df y m). split; [reflexivity|].
      apply month_group_In. cbn [fst snd]. auto.
  - f_equal. rewrite map_map. apply map_ext_in.
    intros row Hrow. apply month_group_In in Hrow as (_ & _ & Hn). exact Hn.
Qed.

Lemma month_map_June (m : Z) : dict_get month_map m = Some "June" -> m = 6.
Proof.
  unfold month_map, month_names. cbn [enumerate dict_get Z.add Pos.add Pos.succ].
  repeat match goal with
         | |- context [Z.eqb m ?k] =>
             destruct (Z.eqb_spec m k); [intros H; first [discriminate H|assumption]|]
         end.
  discriminate.
Qed.

Lemma key_eqb_year_month (r : Observation) (y m : Z) :
  Pandas.key_eqb ym_compare (year_month r) (y, m)
  = (ts_year (date r) =? y) && (ts_month (date r) =? m).
Proof.
  unfold Pandas.key_eqb, ym_compare, year_month. cbn [fst snd].
  destruct (Z.compare_spec (ts_year (date r)) y) as [Hy|Hy|Hy];
    destruct (Z.compare_spec (ts_month (date r)) m) as [Hm|Hm|Hm];
    destruct (Z.eqb_spec (ts_year (date r)) y);
    destruct (Z.eqb_spec (ts_month (date r)) m);
    try reflexivity; lia.
Qed.

(** The count of the first grouping is the number of qualifying days. *)
Lemma days_in_qualifying (data : list Observation) (threshold : float)
    (y m : Z) :
  days_in (threshold_filter threshold (convert_units data)) y m
  = qualifying_days data threshold y m.
Proof.
  unfold days_in, qualifying_days, threshold_filter, convert_units.
  induction data as [|r data IH]; [reflexivity|].
  cbn [map filter]. cbn [in_inches value].
  change (value r * MM_TO_INCHES)%float with (value r * 0.0393701)%float.
  destruct (threshold <=? value r * 0.0393701)%float.
  - cbn [filter]. rewrite key_eqb_year_month. cbn [in_inches date].
    rewrite andb_true_r.
    destruct ((ts_year (date r) =? y) && (ts_month (date r) =? m));
      cbn [List.length]; rewrite IH; reflexivity.
  - rewrite andb_false_r. exact IH.
Qed.

(** C3. Every mean of the table is the unweighted arithmetic mean, in
    binary64, of the numbers of qualifying days of the years that have at
    least one qualifying day in the month: their exact sum over how many
    they are, with no year counted as zero.  With three qualifying June
    days in 2020, five in 2022 and none in any other year, the June row is
    4.0 = (3+5)/2, which is not (3+0+5)/3; with one, one and two the row is
    4/3. *)
Theorem june_mean_over_present_years :
  forall data threshold,
    (forall t name x,
       process_data data threshold = Some t ->
       In (name, x) (rows t) ->
       exists month years,
         name = dict_get month_map month
         /\ years <> []
         /\ StronglySorted Z.lt years
         /\ (forall y, In y years
                       <-> (0 < qualifying_days data threshold y month)%nat)
         /\ x = (PrimFloat.of_uint63
                   (Uint63.of_Z
                      (Z.of_nat
                         (list_sum
                            (map (fun y => qualifying_days data threshold y month)
                                 years))))
                 / PrimFloat.of_uint63
                     (Uint63.of_Z (Z.of_nat (List.length years))))%float)
    /\ (qualifying_days data threshold 2020 6 = 3%nat ->
        qualifying_days data threshold 2022 6 = 5%nat ->
        (forall y, y <> 2020 -> y <> 2022 ->
                   qualifying_days data threshold y 6 = 0%nat) ->
        exists t,
          process_data data threshold = Some t
          /\ (forall x, In (Some "June", x) (rows t) <-> x = 4.0%float))
    /\ ((3 + 5) / 2)%float = 4.0%float
    /\ ((3 + 0 + 5) / 3 =? 4.0)%float = false
    /\ process_data uneven_junes 0.5
       = Some (mkTable 0.5 [(Some "June", (4 / 3)%float)]).
Proof.
  intros data threshold.
  set (Q := threshold_filter threshold (convert_units data)).
  assert (Hrows : forall t, process_data data threshold = Some t ->
            rows t = map (fun row => (dict_get month_map (fst row), snd row))
                       (avg_days (monthly_counts Q))).
  { intros t. unfold process_data.
    destruct (Pandas.empty data); [discriminate|].
    intros E. injection E as <-. reflexivity. }
  assert (Hgen : forall t name x,
       process_data data threshold = Some t ->
       In (name, x) (rows t) ->
       exists month years,
         name = dict_get month_map month
         /\ years <> []
         /\ StronglySorted Z.lt years
         /\ (forall y, In y years
                       <-> (0 < qualifying_days data threshold y month)%nat)
         /\ x = (PrimFloat.of_uint63
                   (Uint63.of_Z
                      (Z.of_nat
                         (list_sum
                            (map (fun y => qualifying_days data threshold y month)
                                 years))))
                 / PrimFloat.of_uint63
                     (Uint63.of_Z (Z.of_nat (List.length years))))%float).
  { intros t name x Ht Hin. rewrite (Hrows t Ht) in Hin.
    apply in_map_iff in Hin as ([m x'] & E & Hin). cbn [fst snd] in E.
    injection E as <- <-.
    apply avg_days_In in Hin as (years & Hne & Hs & Hy & ->).
    exists m, years. split; [reflexivity|]. split; [exact Hne|].
    split; [exact Hs|]. split.
    - intros y. rewrite Hy. fold Q. unfold Q.
      rewrite days_in_qualifying. reflexivity.
    - unfold Pandas.mean, Pandas.float_of_nat. rewrite length_map.
      f_equal. f_equal. f_equal. f_equal. f_equal.
      apply map_ext. intros y. apply days_in_qualifying. }
  split; [exact Hgen|]. split; [|repeat split; reflexivity].
  intros H2020 H2022 Hother.
  assert (Hdata : Pandas.empty data = false).
  { destruct data; [|reflexivity]. discriminate H2020. }
  destruct (process_data data threshold) as [t|] eqn:Ht.
  2: { unfold process_data in Ht. rewrite Hdata in Ht. discriminate. }
  exists t. split; [reflexivity|].
  assert (Hjune : forall x, In (Some "June", x) (rows t) -> x = 4.0%float).
  { intros x Hin.
    destruct (Hgen t _ x eq_refl Hin) as (m & years & Hm & _ & Hs & Hy & ->).
    symmetry in Hm. apply month_map_June in Hm. subst m.
    assert (Hyears : years = [2020; 2022]).
    { apply (sorted_unique Z.compare); [exact Hs|repeat constructor|].
      intros y. rewrite Hy. cbn [In]. split.
      - intros Hpos.
        destruct (Z.eq_dec y 2020) as [->|N1]; [auto|].
        destruct (Z.eq_dec y 2022) as [->|N2]; [auto|].
        rewrite (Hother y N1 N2) in Hpos. lia.
      - intros [<-|[<-|[]]]; [rewrite H2020|rewrite H2022]; lia. }
    rewrite Hyears. cbn [map List.length]. rewrite H2020, H2022. reflexivity. }
  intros x. split; [apply Hjune|]. intros ->.
  assert (H6 : In 6 (map (fun row => snd (fst row)) (monthly_counts Q))).
  { apply in_map_iff. exists ((2020, 6), 3%nat). split; [reflexivity|].
    apply monthly_counts_In. unfold Q. rewrite days_in_qualifying, H2020.
    split; [lia|reflexivity]. }
  assert (Hrow : exists x, In (6, x) (avg_days (monthly_counts Q))).
  { eexists. unfold avg_days. apply (groupby_In Z.compare).
    split; [exact H6|reflexivity]. }
  destruct Hrow as [x Hx].
  assert (Hin : In (Some "June", x) (rows t)).
  { rewrite (Hrows t eq_refl). apply in_map_iff. exists (6, x).
    split; [reflexivity|exact Hx]. }
  rewrite <- (Hjune x Hin). exact Hin.
Qed.

Lemma june_records_other_years :
  forall y, y <> 2020 -> y <> 2022 ->
    qualifying_days june_records 0.5 y 6 = 0%nat.
Proof.
  intros y N1 N2. rewrite <- days_in_qualifying.
  destruct (days_in _ y 6) as [|n] eqn:E; [reflexivity|].
  assert (Hpos : (0 < days_in (threshold_filter 0.5 (convert_units june_records))
                        y 6)%nat) by lia.
  apply days_in_pos in Hpos. vm_compute in Hpos.
  repeat (destruct Hpos as [Hpos|Hpos]; [injection Hpos as Hpos; lia|]).
  destruct Hpos.
Qed.

Lemma june_mean_over_present_years_witness :
  qualifying_days june_records 0.5 2020 6 = 3%nat /\
  qualifying_days june_records 0.5 2022 6 = 5%nat /\
  (forall y, y <> 2020 -> y <> 2022 ->
             qualifying_days june_records 0.5 y 6 = 0%nat) /\
  exists t,
    process_data june_records 0.5 = Some t
    /\ (forall x, In (Some "June", x) (rows t) <-> x = 4.0%float).
Proof.
  assert (H2020 : qualifying_days june_records 0.5 2020 6 = 3%nat) by reflexivity.
  assert (H2022 : qualifying_days june_records 0.5 2022 6 = 5%nat) by reflexivity.
  split; [exact H2020|]. split; [exact H2022|].
  split; [exact june_records_other_years|].
  exact (proj1 (proj2 (june_mean_over_present_years june_records 0.5))
           H2020 H2022 june_records_other_years).
Defined.

(** The whole table for the sample records: June is the only month. *)
Example june_records_table :
  process_data june_records 0.5 = Some (mkTable 0.5 [(Some "June", 4.0%float)]).
Proof. reflexivity. Qed.

(** The scenario of the specification: two of three June 2020 days and one
    of two June 2021 days reach 0.5 in, so June averages 1.5 days. *)
Example springfield_scenario :
  process_data
    [obs 2020 6 1 15.0; obs 2020 6 2 20.0; obs 2020 6 3 10.0;
     obs 2021 6 1 30.0; obs 2021 6 2 5.0] 0.5
  = Some (mkTable 0.5 [(Some "June", 1.5%float)]).
Proof. reflexivity. Qed.

(** ** More on the observation fetcher *)

Section FetchPages.
Variable sv : Services.
Variable station_id : option string.
Variable token : string.

Lemma page_offset_succ (i : nat) :
  page_offset i + RESULTS_PER_PAGE = page_offset (S i).
Proof. unfold page_offset, RESULTS_PER_PAGE. lia. Qed.

Lemma pages_step_full (fuel : nat) (year offset : Z)
    (all_data batch : list Observation) (code : Z) :
  data_api sv (page_params station_id token year offset)
    = Response code (Some batch) ->
  ~ non_success code ->
  batch <> [] ->
  pages sv station_id token (S fuel) year offset all_data
  = (GetData (page_params station_id token year offset) :: Sleep 200
       :: fst (pages sv station_id token fuel year
                 (offset + RESULTS_PER_PAGE) (all_data ++ batch)),
     snd (pages sv station_id token fuel year
            (offset + RESULTS_PER_PAGE) (all_data ++ batch))).
Proof.
  intros Hq Hcode Hne. cbn [pages]. unfold requests_get. rewrite Hq.
  cbn [bind emit ret]. rewrite raise_for_status_success by assumption.
  destruct batch as [|r batch]; [contradiction|].
  cbn [bind ret results_of Pandas.empty emit app].
  destruct (pages sv station_id token fuel year (offset + RESULTS_PER_PAGE)
              (all_data ++ r :: batch)) as [tr o].
  reflexivity.
Qed.

Lemma pages_step_empty (fuel : nat) (year offset : Z)
    (all_data : list Observation) (code : Z) :
  data_api sv (page_params station_id token year offset)
    = Response code (Some []) ->
  ~ non_success code ->
  pages sv station_id token (S fuel) year offset all_data
  = ([GetData (page_params station_id token year offset)], Returned all_data).
Proof.
  intros Hq Hcode. cbn [pages]. unfold requests_get. rewrite Hq.
  cbn [bind emit ret]. rewrite raise_for_status_success by assumption.
  reflexivity.
Qed.

Lemma not_non_success_200 : ~ non_success 200.
Proof. unfold non_success. lia. Qed.

(** [n] non-empty pages followed by an empty one. *)
Lemma pages_until_empty (year : Z) (batch : nat -> list Observation) :
  forall n fuel first all_data,
    (n < fuel)%nat ->
    (forall i, (first <= i < first + n)%nat ->
       data_api sv (page_params station_id token year (page_offset i))
         = Response 200 (Some (batch i)) /\ batch i <> []) ->
    data_api sv (page_params station_id token year (page_offset (first + n)))
      = Response 200 (Some []) ->
    pages sv station_id token fuel year (page_offset first) all_data
    = (full_pages_trace station_id token year first n
         ++ [GetData (page_params station_id token year
                        (page_offset (first + n)))],
       Returned (all_data ++ List.concat (map batch (seq first n)))).
Proof.
  induction n as [|n IH]; intros fuel first all_data Hfuel Hfull Hlast.
  - destruct fuel as [|fuel]; [lia|].
    rewrite Nat.add_0_r in Hlast.
    rewrite (pages_step_empty fuel year _ all_data 200 Hlast not_non_success_200).
    cbn. rewrite Nat.add_0_r, app_nil_r. reflexivity.
  - destruct fuel as [|fuel]; [lia|].
    destruct (Hfull first ltac:(lia)) as [Hq Hne].
    rewrite (pages_step_full fuel year _ all_data (batch first) 200
               Hq not_non_success_200 Hne).
    rewrite page_offset_succ.
    rewrite (IH fuel (S first) (all_data ++ batch first)).
    + cbn [fst snd]. unfold full_pages_trace.
      cbn [seq flat_map map List.concat app].
      rewrite <- app_assoc. replace (S first + n)%nat with (first + S n)%nat by lia.
      reflexivity.
    + lia.
    + intros i Hi. apply Hfull. lia.
    + replace (S first + n)%nat with (first + S n)%nat by lia. exact Hlast.
Qed.

(** Pages that never come back empty keep the loop going for as long as it
    is allowed to run. *)
Lemma pages_never_empty (year : Z) (batch : nat -> list Observation) :
  (forall i,
     data_api sv (page_params station_id token year (page_offset i))
       = Response 200 (Some (batch i)) /\ batch i <> []) ->
  forall fuel first all_data,
    pages sv station_id token fuel year (page_offset first) all_data
    = (full_pages_trace station_id token year first fuel, Running).
Proof.
  intros Hfull. induction fuel as [|fuel IH]; intros first all_data.
  - reflexivity.
  - destruct (Hfull first) as [Hq Hne].
    rewrite (pages_step_full fuel year _ all_data (batch first) 200
               Hq not_non_success_200 Hne).
    rewrite page_offset_succ, IH. reflexivity.
Qed.
End FetchPages.

Lemma range_cons (a b : Z) : a < b -> range a b = a :: range (a + 1) b.
Proof.
  intros H. unfold range.
  replace (Z.to_nat (b - a)) with (S (Z.to_nat (b - (a + 1)))) by lia.
  cbn [seq map]. f_equal; [lia|].
  rewrite <- seq_shift, map_map. apply map_ext. intros i. lia.
Qed.

Lemma range_In (a b y : Z) : In y (range a b) <-> a <= y < b.
Proof.
  unfold range. rewrite in_map_iff. split.
  - intros (i & <- & Hi). apply in_seq in Hi. lia.
  - intros Hy. exists (Z.to_nat (y - a)). split; [lia|].
    apply in_seq. lia.
Qed.

Lemma range_app (a m b : Z) :
  a <= m <= b -> range a b = range a m ++ range m b.
Proof.
  intros H. unfold range.
  replace (Z.to_nat (b - a)) with (Z.to_nat (m - a) + Z.to_nat (b - m))%nat by lia.
  rewrite seq_app, map_app. f_equal. cbn [Nat.add].
  assert (Hshift : forall n k,
            map (fun i => a + Z.of_nat i) (seq (Z.to_nat (m - a) + k) n)
            = map (fun i => m + Z.of_nat i) (seq k n)).
  { induction n as [|n IH]; intros k; cbn [seq map]; [reflexivity|].
    f_equal; [lia|]. rewrite <- IH. rewrite Nat.add_succ_r. reflexivity. }
  rewrite <- (Hshift _ 0%nat). rewrite Nat.add_0_r. reflexivity.
Qed.

(** X1. Paging goes on until a page comes back empty: after [n] non-empty
    pages (of any size) and an empty one, the fetcher has sent [n + 1]
    requests, at offsets 1, 1001, ..., paused after each non-empty page, and
    returns the pages in the order received. *)
Theorem fetch_pages_until_empty :
  forall sv station_id token year (batch : nat -> list Observation) n fuel,
    (n < fuel)%nat ->
    (forall i, (i < n)%nat ->
       data_api sv (page_params station_id token year (page_offset i))
         = Response 200 (Some (batch i)) /\ batch i <> []) ->
    data_api sv (page_params station_id token year (page_offset n))
      = Response 200 (Some []) ->
    fetch_precipitation_data sv station_id token fuel year year
    = (full_pages_trace station_id token year 0 n
         ++ [GetData (page_params station_id token year (page_offset n))],
       Returned (List.concat (map batch (seq 0 n)))).
Proof.
  intros sv sid tok year batch n fuel Hfuel Hfull Hlast.
  unfold fetch_precipitation_data. rewrite range_one. cbn [for_years].
  change 1 with (page_offset 0) at 1.
  rewrite (pages_until_empty sv sid tok year batch n fuel 0 []); auto.
  - cbn [bind ret app]. rewrite app_nil_r. reflexivity.
  - intros i Hi. apply Hfull. lia.
Qed.

(** X2. Only an empty page (or a failure) ends a year: against a service
    that answers every offset with records, the loop is still going after
    any number of turns, and later years are never reached. *)
Theorem fetch_never_empty_keeps_running :
  forall sv station_id token start_year end_year
         (batch : nat -> list Observation),
    start_year <= end_year ->
    (forall i,
       data_api sv (page_params station_id token start_year (page_offset i))
         = Response 200 (Some (batch i)) /\ batch i <> []) ->
    forall fuel,
      fetch_precipitation_data sv station_id token fuel start_year end_year
      = (full_pages_trace station_id token start_year 0 fuel, Running).
Proof.
  intros sv sid tok s e batch Hse Hfull fuel.
  unfold fetch_precipitation_data. rewrite range_cons by lia.
  cbn [for_years]. change 1 with (page_offset 0) at 1.
  rewrite (pages_never_empty sv sid tok s batch Hfull). reflexivity.
Qed.

Section FetchStructure.
Variable sv : Services.
Variable station_id : option string.
Variable token : string.

(** One turn of the loop, by what the service answers. *)
Lemma pages_unfold (fuel : nat) (year offset : Z) (all_data : list Observation) :
  pages sv station_id token (S fuel) year offset all_data
  = let request := GetData (page_params station_id token year offset) in
    match data_api sv (page_params station_id token year offset) with
    | Unreachable => ([request], Raised ConnectionError)
    | Response code body =>
        if (400 <=? code) && (code <? 600)
        then ([request], Raised (HTTPError code))
        else
          match body with
          | None => ([request], Raised JSONDecodeError)
          | Some [] => ([request], Returned all_data)
          | Some (r :: batch) =>
              let next := pages sv station_id token fuel year
                            (offset + RESULTS_PER_PAGE)
                            (all_data ++ r :: batch) in
              (request :: Sleep 200 :: fst next, snd next)
          end
    end.
Proof.
  cbn [pages]. unfold requests_get, raise_for_status.
  destruct (data_api sv (page_params station_id token year offset))
    as [|code [[|r batch]|]]; cbn [bind emit ret raise app];
    try destruct ((400 <=? code) && (code <? 600));
    cbn [bind emit ret raise app results_of Pandas.empty]; try reflexivity.
  destruct (pages sv station_id token fuel year (offset + RESULTS_PER_PAGE)
              (all_data ++ r :: batch)) as [tr o].
  reflexivity.
Qed.

Lemma pages_events :
  forall fuel year first all_data ev,
    In ev (fst (pages sv station_id token fuel year (page_offset first) all_data)) ->
    ev = Sleep 200
    \/ exists i, ev = GetData (page_params station_id token year (page_offset i)).
Proof.
  induction fuel as [|fuel IH]; intros year first all_data ev.
  - intros [].
  - rewrite pages_unfold. cbv zeta.
    destruct (data_api sv _) as [|code [[|r batch]|]];
      try destruct ((400 <=? code) && (code <? 600)); cbn [fst In];
      try (intros [<-|[]]; right; exists first; reflexivity).
    rewrite page_offset_succ.
    intros [<-|[<-|H]]; [right; exists first; reflexivity|left; reflexivity|].
    eapply IH. exact H.
Qed.

Lemma for_years_events :
  forall fuel years all_data ev,
    In ev (fst (for_years sv station_id token fuel years all_data)) ->
    ev = Sleep 200
    \/ exists year i,
         In year years
         /\ ev = GetData (page_params station_id token year (page_offset i)).
Proof.
  intros fuel years. induction years as [|year rest IH]; intros all_data ev.
  - intros [].
  - cbn [for_years].
    pose proof (pages_events fuel year 0 all_data ev) as Hp.
    change (page_offset 0) with 1 in Hp.
    destruct (pages sv station_id token fuel year 1 all_data) as [tr [d|x|]];
      cbn [bind fst] in *.
    + specialize (IH d ev).
      destruct (for_years sv station_id token fuel rest d) as [tr' o'].
      cbn [fst] in *. intros H. apply in_app_or in H as [H|H].
      * destruct (Hp H) as [->|[i ->]]; [auto|].
        right. exists year, i. split; [left; reflexivity|reflexivity].
      * destruct (IH H) as [->|(y & i & Hy & ->)]; [auto|].
        right. exists y, i. split; [right; exact Hy|reflexivity].
    + intros H. destruct (Hp H) as [->|[i ->]]; [auto|].
      right. exists year, i. split; [left; reflexivity|reflexivity].
    + intros H. destruct (Hp H) as [->|[i ->]]; [auto|].
      right. exists year, i. split; [left; reflexivity|reflexivity].
Qed.

(** Requests and pauses of a loop that ended normally. *)
Lemma pages_counts :
  forall fuel year offset all_data tr d,
    pages sv station_id token fuel year offset all_data = (tr, Returned d) ->
    List.length (filter is_request tr) = S (List.length (filter is_sleep tr)).
Proof.
  induction fuel as [|fuel IH]; intros year offset all_data tr d.
  - discriminate.
  - rewrite pages_unfold. cbv zeta.
    destruct (data_api sv _) as [|code [[|r batch]|]];
      try destruct ((400 <=? code) && (code <? 600)); try discriminate.
    + intros E. injection E as <- _. reflexivity.
    + specialize (IH year (offset + RESULTS_PER_PAGE) (all_data ++ r :: batch)).
      destruct (pages sv station_id token fuel year (offset + RESULTS_PER_PAGE)
                  (all_data ++ r :: batch)) as [tr' o'].
      cbn [fst snd]. intros E. injection E as <- ->.
      cbn [filter is_request is_sleep List.length]. f_equal. eapply IH. reflexivity.
Qed.

Lemma for_years_counts :
  forall fuel years all_data tr d,
    for_years sv station_id token fuel years all_data = (tr, Returned d) ->
    List.length (filter is_request tr)
    = (List.length (filter is_sleep tr) + List.length years)%nat.
Proof.
  intros fuel years. induction years as [|year rest IH]; intros all_data tr d.
  - cbn. intros E. injection E as <- _. reflexivity.
  - cbn [for_years].
    pose proof (pages_counts fuel year 1 all_data) as Hp.
    destruct (pages sv station_id token fuel year 1 all_data) as [tr1 [d1|x|]];
      cbn [bind]; try discriminate.
    specialize (IH d1).
    destruct (for_years sv station_id token fuel rest d1) as [tr2 o2].
    intros E. injection E as <- ->.
    rewrite !filter_app, !length_app.
    rewrite (Hp tr1 d1 eq_refl), (IH tr2 d eq_refl). cbn [List.length]. lia.
Qed.

(** The records gathered before a loop starts are kept in front of what it
    adds. *)
Lemma pages_acc :
  forall fuel year offset all_data,
    pages sv station_id token fuel year offset all_data
    = (fst (pages sv station_id token fuel year offset []),
       outcome_map (app all_data)
         (snd (pages sv station_id token fuel year offset []))).
Proof.
  induction fuel as [|fuel IH]; intros year offset all_data.
  - reflexivity.
  - rewrite !pages_unfold. cbv zeta.
    destruct (data_api sv _) as [|code [[|r batch]|]];
      try destruct ((400 <=? code) && (code <? 600)); cbn [fst snd outcome_map];
      rewrite ?app_nil_r; try reflexivity.
    rewrite (IH year _ (all_data ++ r :: batch)).
    rewrite (IH year _ ([] ++ r :: batch)). cbn [fst snd app].
    f_equal.
    destruct (snd (pages sv station_id token fuel year
                     (offset + RESULTS_PER_PAGE) [])) as [d|x|];
      cbn [outcome_map]; try reflexivity.
    rewrite <- app_assoc. reflexivity.
Qed.

Lemma for_years_acc :
  forall fuel years all_data,
    for_years sv station_id token fuel years all_data
    = (fst (for_years sv station_id token fuel years []),
       outcome_map (app all_data)
         (snd (for_years sv station_id token fuel years []))).
Proof.
  intros fuel years. induction years as [|year rest IH]; intros all_data.
  - cbn. rewrite app_nil_r. reflexivity.
  - cbn [for_years]. rewrite (pages_acc fuel year 1 all_data).
    destruct (pages sv station_id token fuel year 1 []) as [tr1 [d1|x|]];
      cbn [fst snd outcome_map bind]; try reflexivity.
    rewrite (IH (all_data ++ d1)), (IH d1).
    destruct (for_years sv station_id token fuel rest []) as [tr2 [d2|x|]];
      cbn [fst snd outcome_map]; rewrite ?app_assoc; reflexivity.
Qed.

Lemma for_years_app :
  forall fuel years1 years2 all_data,
    for_years sv station_id token fuel (years1 ++ years2) all_data
    = bind (for_years sv station_id token fuel years1 all_data)
           (for_years sv station_id token fuel years2).
Proof.
  intros fuel years1 years2. induction years1 as [|year rest IH]; intros all_data.
  - cbn [app for_years bind ret].
    destruct (for_years sv station_id token fuel years2 all_data). reflexivity.
  - cbn [app for_years].
    destruct (pages sv station_id token fuel year 1 all_data) as [tr1 [d1|x|]];
      cbn [bind]; try reflexivity.
    rewrite IH.
    destruct (for_years sv station_id token fuel rest d1) as [tr2 [d2|x|]];
      cbn [bind]; try reflexivity.
    destruct (for_years sv station_id token fuel years2 d2) as [tr3 o3].
    cbn [bind]. rewrite app_assoc. reflexivity.
Qed.
End FetchStructure.

Lemma fetch_pages_until_empty_witness :
  let sid := Some "GHCND:USW00014842" in
  let batch := fun i : nat =>
    match i with
    | O => [obs 2020 6 1 15.0; obs 2020 6 2 20.0]
    | _ => [obs 2020 6 3 10.0]
    end in
  (2 < 3)%nat /\
  fetch_precipitation_data sv_short_pages sid "token" 3 2020 2020
  = ([GetData (page_params sid "token" 2020 1); Sleep 200;
      GetData (page_params sid "token" 2020 1001); Sleep 200;
      GetData (page_params sid "token" 2020 2001)],
     Returned [obs 2020 6 1 15.0; obs 2020 6 2 20.0; obs 2020 6 3 10.0]).
Proof.
  intros sid batch.
  assert (Hfuel : (2 < 3)%nat) by lia.
  assert (Hfull : forall i, (i < 2)%nat ->
            data_api sv_short_pages (page_params sid "token" 2020 (page_offset i))
              = Response 200 (Some (batch i)) /\ batch i <> []).
  { intros [|[|i]] Hi; [split; [reflexivity|discriminate]..|lia]. }
  split; [exact Hfuel|].
  exact (fetch_pages_until_empty sv_short_pages sid "token" 2020 batch 2 3
           Hfuel Hfull eq_refl).
Defined.

Lemma fetch_never_empty_keeps_running_witness :
  let sid := Some "GHCND:USW00014842" in
  2020 <= 2021 /\
  forall fuel,
    fetch_precipitation_data sv_endless sid "token" fuel 2020 2021
    = (full_pages_trace sid "token" 2020 0 fuel, Running).
Proof.
  intros sid.
  assert (Hse : 2020 <= 2021) by lia.
  assert (Hfull : forall i : nat,
            data_api sv_endless (page_params sid "token" 2020 (page_offset i))
              = Response 200 (Some [obs 2020 6 1 15.0])
            /\ [obs 2020 6 1 15.0] <> []).
  { intros i. split; [reflexivity|discriminate]. }
  split; [exact Hse|].
  exact (fetch_never_empty_keeps_running sv_endless sid "token" 2020 2021
           (fun _ => [obs 2020 6 1 15.0]) Hse Hfull).
Defined.

(** X3. Whatever the service answers, the fetcher only pauses for 200 ms
    and sends page requests for the given station and token, the GHCND
    dataset, the PRCP datatype, metric units, one whole year of the range,
    limit 1000 and an offset of the form 1 + 1000 i. *)
Theorem fetch_requests_well_formed :
  forall sv station_id token fuel start_year end_year ev,
    In ev (fst (fetch_precipitation_data sv station_id token fuel
                  start_year end_year)) ->
    ev = Sleep 200
    \/ exists year i,
         start_year <= year <= end_year
         /\ ev = GetData
                  (mkDataQuery token "GHCND" station_id "PRCP"
                     (mkTimestamp year 1 1) (mkTimestamp year 12 31)
                     1000 (1 + 1000 * Z.of_nat i) "metric").
Proof.
  intros sv sid tok fuel s e ev Hin.
  apply for_years_events in Hin as [->|(year & i & Hy & ->)]; [auto|].
  right. exists year, i. split; [|reflexivity].
  apply range_In in Hy. lia.
Qed.

Lemma fetch_requests_well_formed_witness :
  let sid := Some "GHCND:USW00014842" in
  let ev := GetData (page_params sid "token" 2021 1001) in
  In ev (fst (fetch_precipitation_data sv_short_pages sid "token" 5 2020 2021)) /\
  (ev = Sleep 200
   \/ exists year i,
        2020 <= year <= 2021
        /\ ev = GetData
                 (mkDataQuery "token" "GHCND" sid "PRCP"
                    (mkTimestamp year 1 1) (mkTimestamp year 12 31)
                    1000 (1 + 1000 * Z.of_nat i) "metric")).
Proof.
  intros sid ev.
  assert (Hin : In ev (fst (fetch_precipitation_data sv_short_pages sid
                              "token" 5 2020 2021)))
    by (vm_compute; repeat (first [left; reflexivity | right])).
  split; [exact Hin|].
  exact (fetch_requests_well_formed sv_short_pages sid "token" 5 2020 2021 ev Hin).
Defined.

Lemma range_length (a b : Z) : List.length (range a b) = Z.to_nat (b - a).
Proof. unfold range. rewrite length_map, length_seq. reflexivity. Qed.

(** X4. When the fetcher returns, it has paused after every request but
    the last of each year: the empty page that ends a year is not followed
    by a pause. *)
Theorem fetch_requests_and_pauses :
  forall sv station_id token fuel start_year end_year tr data,
    fetch_precipitation_data sv station_id token fuel start_year end_year
      = (tr, Returned data) ->
    List.length (filter is_request tr)
    = (List.length (filter is_sleep tr)
       + Z.to_nat (end_year + 1 - start_year))%nat.
Proof.
  intros sv sid tok fuel s e tr data H.
  apply for_years_counts in H. rewrite range_length in H. exact H.
Qed.

Lemma fetch_requests_and_pauses_witness :
  let sid := Some "GHCND:USW00014842" in
  let tr := fst (fetch_precipitation_data sv_short_pages sid "token" 5 2020 2021) in
  let data := [obs 2020 6 1 15.0; obs 2020 6 2 20.0; obs 2020 6 3 10.0;
               obs 2021 6 1 15.0; obs 2021 6 2 20.0; obs 2021 6 3 10.0] in
  fetch_precipitation_data sv_short_pages sid "token" 5 2020 2021
    = (tr, Returned data)
  /\ List.length (filter is_request tr)
     = (List.length (filter is_sleep tr) + Z.to_nat (2021 + 1 - 2020))%nat.
Proof.
  intros sid tr data.
  assert (H : fetch_precipitation_data sv_short_pages sid "token" 5 2020 2021
              = (tr, Returned data)) by reflexivity.
  split; [exact H|].
  exact (fetch_requests_and_pauses sv_short_pages sid "token" 5 2020 2021
           tr data H).
Defined.

(** X5. Fetching a range of years is fetching its first part and then the
    rest: the traces follow each other and the records of the earlier years
    come first. *)
Theorem fetch_years_compose :
  forall sv station_id token fuel start_year mid_year end_year tr1 data1 tr2 o2,
    start_year <= mid_year + 1 ->
    mid_year <= end_year ->
    fetch_precipitation_data sv station_id token fuel start_year mid_year
      = (tr1, Returned data1) ->
    fetch_precipitation_data sv station_id token fuel (mid_year + 1) end_year
      = (tr2, o2) ->
    fetch_precipitation_data sv station_id token fuel start_year end_year
    = (tr1 ++ tr2, outcome_map (app data1) o2).
Proof.
  intros sv sid tok fuel s m e tr1 d1 tr2 o2 Hsm Hme H1 H2.
  unfold fetch_precipitation_data in *.
  rewrite (range_app s (m + 1) (e + 1)) by lia.
  rewrite for_years_app, H1. cbn [bind].
  rewrite for_years_acc, H2. reflexivity.
Qed.

Lemma fetch_years_compose_witness :
  let sid := Some "GHCND:USW00014842" in
  let year y :=
    ([GetData (page_params sid "token" y 1); Sleep 200;
      GetData (page_params sid "token" y 1001); Sleep 200;
      GetData (page_params sid "token" y 2001)],
     [obs y 6 1 15.0; obs y 6 2 20.0; obs y 6 3 10.0]) in
  2020 <= 2020 + 1 /\ 2020 <= 2021 /\
  fetch_precipitation_data sv_short_pages sid "token" 5 2020 2021
  = (fst (year 2020) ++ fst (year 2021),
     Returned (snd (year 2020) ++ snd (year 2021))).
Proof.
  intros sid year.
  assert (H1 : 2020 <= 2020 + 1) by lia.
  assert (H2 : 2020 <= 2021) by lia.
  split; [exact H1|]. split; [exact H2|].
  exact (fetch_years_compose sv_short_pages sid "token" 5 2020 2020 2021
           (fst (year 2020)) (snd (year 2020))
           (fst (year 2021)) (Returned (snd (year 2021)))
           H1 H2 eq_refl eq_refl).
Defined.

(** ** More on the pipeline *)

Lemma get_coordinates_outcome sv addr :
  get_coordinates sv addr
  = ([Geocode addr],
     match geocode sv addr with
     | GeoUnreachable => Raised ConnectionError
     | GeoLocation None => Raised (ValueError "Could not geocode address.")
     | GeoLocation (Some location) => Returned location
     end).
Proof.
  unfold get_coordinates. destruct (geocode sv addr) as [|[loc|]]; reflexivity.
Qed.

Lemma find_nearest_station_outcome sv lat lon token :
  find_nearest_station sv lat lon token
  = ([GetStations (station_params lat lon token)],
     match stations_api sv (station_params lat lon token) with
     | Unreachable => Raised ConnectionError
     | Response code body =>
         if (400 <=? code) && (code <? 600) then Raised (HTTPError code)
         else
           match body with
           | None => Raised JSONDecodeError
           | Some [] => Returned None
           | Some (id :: _) => Returned (Some id)
           end
     end).
Proof.
  unfold find_nearest_station, requests_get, raise_for_status.
  destruct (stations_api sv (station_params lat lon token)) as [|c [[|id l]|]];
    cbn; try reflexivity;
    destruct ((400 <=? c) && (c <? 600)); reflexivity.
Qed.

(** The three ways a run can go. *)
Lemma main_shape sv fuel inp :
  run_button inp = true ->
  let token := NOAA_API_TOKEN inp in
  let geo := [Call_get_coordinates (address inp); Geocode (address inp)] in
  (exists e,
     snd (get_coordinates sv (address inp)) = Raised e
     /\ main sv fuel inp = geo ++ [St_error e])
  \/ (exists lat lon,
        snd (get_coordinates sv (address inp)) = Returned (lat, lon)
        /\ let loc := [Call_find_nearest_station lat lon token;
                       GetStations (station_params lat lon token)] in
           ((exists e,
               snd (find_nearest_station sv lat lon token) = Raised e
               /\ main sv fuel inp = geo ++ loc ++ [St_error e])
            \/ (exists station_id,
                  snd (find_nearest_station sv lat lon token) = Returned station_id
                  /\ let fetched :=
                       fetch_precipitation_data sv station_id token fuel
                         (start_year inp) (end_year inp) in
                     main sv fuel inp
                     = geo ++ loc
                       ++ Call_fetch_precipitation_data station_id token
                            (start_year inp) (end_year inp)
                       :: fst fetched ++ after_fetch inp (snd fetched)))).
Proof.
  intros Hrun. cbv zeta. unfold main, analysis. rewrite Hrun.
  rewrite get_coordinates_outcome. cbn [snd].
  destruct (geocode sv (address inp)) as [|[[lat lon]|]];
    cbn [bind emit ret raise app];
    try (left; eexists; split; reflexivity).
  right. exists lat, lon. split; [reflexivity|]. cbv zeta.
  rewrite find_nearest_station_outcome. cbn [snd].
  destruct (stations_api sv (station_params lat lon (NOAA_API_TOKEN inp))) as [|c body];
    [left; eexists; split; [reflexivity|reflexivity]|].
  destruct ((400 <=? c) && (c <? 600));
    [left; eexists; split; [reflexivity|reflexivity]|].
  destruct body as [results|];
    [|left; eexists; split; [reflexivity|reflexivity]].
  right. exists (match results with id :: _ => Some id | [] => None end).
  split; [destruct results; reflexivity|].
  set (sid := match results with id :: _ => Some id | [] => None end).
  replace (match results with [] => Returned None | id :: _ => Returned (Some id) end)
    with (Returned (A:=option string) sid) by (destruct results; reflexivity).
  cbn [bind emit ret raise app].
  destruct (fetch_precipitation_data sv sid (NOAA_API_TOKEN inp) fuel
              (start_year inp) (end_year inp)) as [tr [data|e|]];
    cbn [bind emit ret raise app fst snd after_fetch].
  - destruct (process_data data (threshold_in inp));
      cbn [bind emit ret raise app shown];
      rewrite <- ?app_assoc; reflexivity.
  - reflexivity.
  - cbn [app]. rewrite app_nil_r. reflexivity.
Qed.

Lemma stages_app (tr1 tr2 : list Event) :
  stages (tr1 ++ tr2) = stages tr1 ++ stages tr2.
Proof.
  induction tr1 as [|ev tr1 IH]; cbn [app stages]; [reflexivity|].
  destruct (stage_called ev); rewrite IH; reflexivity.
Qed.

Lemma fetch_events_plain sv station_id token fuel start_year end_year ev :
  In ev (fst (fetch_precipitation_data sv station_id token fuel
                start_year end_year)) ->
  stage_called ev = None /\ is_display ev = false.
Proof.
  intros H. apply for_years_events in H as [->|(y & i & _ & ->)];
    split; reflexivity.
Qed.

Lemma stages_silent (tr : list Event) :
  (forall ev, In ev tr -> stage_called ev = None) -> stages tr = [].
Proof.
  induction tr as [|ev tr IH]; intros H; cbn [stages]; [reflexivity|].
  rewrite (H ev (or_introl eq_refl)). apply IH.
  intros ev' Hev'. apply H. right. exact Hev'.
Qed.

(** X6. A station search answered with a client or server error status
    ends the run with that error, before the fetcher is called. *)
Theorem station_failure_stops_pipeline :
  forall sv fuel inp lat lon code body,
    run_button inp = true ->
    geocode sv (address inp) = GeoLocation (Some (lat, lon)) ->
    stations_api sv (station_params lat lon (NOAA_API_TOKEN inp))
      = Response code body ->
    non_success code ->
    main sv fuel inp
    = [Call_get_coordinates (address inp);
       Geocode (address inp);
       Call_find_nearest_station lat lon (NOAA_API_TOKEN inp);
       GetStations (station_params lat lon (NOAA_API_TOKEN inp));
       St_error (HTTPError code)].
Proof.
  intros sv fuel inp lat lon code body Hrun Hgeo Hst Hcode.
  unfold main, analysis. rewrite Hrun, get_coordinates_outcome, Hgeo.
  cbn [bind emit ret raise app].
  rewrite find_nearest_station_outcome, Hst.
  replace ((400 <=? code) && (code <? 600)) with true; [reflexivity|].
  symmetry. apply andb_true_iff. unfold non_success in Hcode.
  split; [apply Z.leb_le|apply Z.ltb_lt]; lia.
Qed.

(** X7. Whatever the services answer, a run calls the four stages in their
    fixed order, each at most once, and never a stage without those before
    it. *)
Theorem run_stages_in_order :
  forall sv fuel inp,
    exists n,
      stages (main sv fuel inp)
      = firstn n [Geocoder; StationLocator; ObservationFetcher; Aggregator].
Proof.
  intros sv fuel inp.
  destruct (run_button inp) eqn:Hrun.
  2: { exists 0%nat. unfold main. rewrite Hrun. reflexivity. }
  destruct (main_shape sv fuel inp Hrun)
    as [(e & _ & ->)|(lat & lon & _ & [(e & _ & ->)|(sid & _ & ->)])].
  - exists 1%nat. reflexivity.
  - exists 2%nat. reflexivity.
  - cbn [app stages stage_called]. rewrite stages_app.
    rewrite (stages_silent (fst _))
      by (intros ev Hev; apply fetch_events_plain in Hev; tauto).
    destruct (snd _) as [data|e|]; cbn [after_fetch app].
    + exists 4%nat. cbn [stages stage_called firstn].
      destruct (process_data data (threshold_in inp)); reflexivity.
    + exists 3%nat. reflexivity.
    + exists 3%nat. reflexivity.
Qed.

(** X8. An error is the last event of its run and the only thing the run
    shows; the aggregator was not called. *)
Theorem error_ends_run :
  forall sv fuel inp e,
    In (St_error e) (main sv fuel inp) ->
    exists tr,
      main sv fuel inp = tr ++ [St_error e]
      /\ (forall ev, In ev tr ->
            is_display ev = false /\ stage_called ev <> Some Aggregator).
Proof.
  intros sv fuel inp e Hin.
  destruct (run_button inp) eqn:Hrun.
  2: { unfold main in Hin. rewrite Hrun in Hin. destruct Hin. }
  destruct (main_shape sv fuel inp Hrun)
    as [(e' & _ & E)|(lat & lon & _ & [(e' & _ & E)|(sid & _ & E)])];
    rewrite E in *; clear E.
  - cbn [app In] in Hin.
    destruct Hin as [H|[H|[H|[]]]]; try discriminate. injection H as ->.
    eexists [_; _]. split; [reflexivity|].
    intros ev [<-|[<-|[]]]; split; (reflexivity || discriminate).
  - cbn [app In] in Hin.
    destruct Hin as [H|[H|[H|[H|[H|[]]]]]]; try discriminate. injection H as ->.
    eexists [_; _; _; _]. split; [reflexivity|].
    intros ev [<-|[<-|[<-|[<-|[]]]]]; split; (reflexivity || discriminate).
  - pose proof (fetch_events_plain sv sid (NOAA_API_TOKEN inp) fuel
                  (start_year inp) (end_year inp)) as Hplain.
    destruct (fetch_precipitation_data sv sid (NOAA_API_TOKEN inp) fuel
                (start_year inp) (end_year inp)) as [tr o].
    cbn [fst snd app In] in *.
    repeat (destruct Hin as [Hin|Hin]; [discriminate Hin|]).
    apply in_app_or in Hin as [Hin|Hin].
    { apply Hplain in Hin as [_ Hin]. discriminate Hin. }
    destruct o as [data|e'|]; cbn [after_fetch] in *.
    + exfalso. destruct Hin as [Hin|Hin]; [discriminate Hin|].
      destruct (process_data data (threshold_in inp)); cbn [shown In] in Hin;
        repeat (destruct Hin as [Hin|Hin]; [discriminate Hin|]); destruct Hin.
    + destruct Hin as [Hin|[]]. injection Hin as ->.
      eexists (_ :: _ :: _ :: _ :: _ :: tr). split; [reflexivity|].
      intros ev Hev. cbn [In] in Hev.
      repeat (destruct Hev as [<-|Hev]; [split; (reflexivity || discriminate)|]).
      apply Hplain in Hev as [Hs Hd]. rewrite Hs. split; [exact Hd|discriminate].
    + destruct Hin.
Qed.

(** X9. Once the aggregator is called the run ends with its answer: the
    warning when no record at all was fetched, and otherwise the success
    message, the table and the download, even if the table has no rows. *)
Theorem aggregated_run_ending :
  forall sv fuel inp data threshold,
    In (Call_process_data data threshold) (main sv fuel inp) ->
    threshold = threshold_in inp
    /\ ((data = []
         /\ exists tr,
              main sv fuel inp
              = tr ++ [Call_process_data [] threshold;
                       St_warning
                         "No qualifying rain days found in the selected time period."])
        \/ (data <> []
            /\ exists tr t,
                 process_data data threshold = Some t
                 /\ main sv fuel inp
                    = tr ++ [Call_process_data data threshold;
                             St_success;
                             St_subheader threshold;
                             St_dataframe t;
                             St_download_button t (start_year inp) (end_year inp)])).
Proof.
  intros sv fuel inp data threshold Hin.
  destruct (run_button inp) eqn:Hrun.
  2: { unfold main in Hin. rewrite Hrun in Hin. destruct Hin. }
  destruct (main_shape sv fuel inp Hrun)
    as [(e' & _ & E)|(lat & lon & _ & [(e' & _ & E)|(sid & _ & E)])];
    rewrite E in *; clear E.
  - cbn [app In] in Hin. repeat (destruct Hin as [Hin|Hin]; [discriminate Hin|]).
    destruct Hin.
  - cbn [app In] in Hin. repeat (destruct Hin as [Hin|Hin]; [discriminate Hin|]).
    destruct Hin.
  - pose proof (fetch_events_plain sv sid (NOAA_API_TOKEN inp) fuel
                  (start_year inp) (end_year inp)) as Hplain.
    destruct (fetch_precipitation_data sv sid (NOAA_API_TOKEN inp) fuel
                (start_year inp) (end_year inp)) as [tr o].
    cbn [fst snd app In] in *.
    repeat (destruct Hin as [Hin|Hin]; [discriminate Hin|]).
    apply in_app_or in Hin as [Hin|Hin].
    { apply Hplain in Hin as [Hin _]. discriminate Hin. }
    destruct o as [data'|e'|]; cbn [after_fetch] in *.
    + assert (Hd : data' = data /\ threshold_in inp = threshold).
      { destruct Hin as [Hin|Hin]; [injection Hin as -> ->; auto|].
        destruct (process_data data' (threshold_in inp)); cbn [shown In] in Hin;
          repeat (destruct Hin as [Hin|Hin]; [discriminate Hin|]); destruct Hin. }
      destruct Hd as [-> <-]. split; [reflexivity|].
      destruct data as [|r data].
      * left. split; [reflexivity|].
        eexists (_ :: _ :: _ :: _ :: _ :: tr). reflexivity.
      * right. split; [discriminate|].
        eexists (_ :: _ :: _ :: _ :: _ :: tr). eexists.
        split; reflexivity.
    + destruct Hin as [Hin|[]]. discriminate Hin.
    + destruct Hin.
Qed.

(** X10. Every observation request of a run carries the user's token, the
    station the locator answered, and a year of the chosen range. *)
Theorem run_requests_use_located_station :
  forall sv fuel inp q,
    In (GetData q) (main sv fuel inp) ->
    dq_token q = NOAA_API_TOKEN inp
    /\ start_year inp <= ts_year (dq_startdate q) <= end_year inp
    /\ exists lat lon,
         snd (get_coordinates sv (address inp)) = Returned (lat, lon)
         /\ snd (find_nearest_station sv lat lon (NOAA_API_TOKEN inp))
            = Returned (dq_stationid q).
Proof.
  intros sv fuel inp q Hin.
  destruct (run_button inp) eqn:Hrun.
  2: { unfold main in Hin. rewrite Hrun in Hin. destruct Hin. }
  destruct (main_shape sv fuel inp Hrun)
    as [(e' & _ & E)|(lat & lon & Hgeo & [(e' & _ & E)|(sid & Hst & E)])];
    rewrite E in *; clear E.
  - cbn [app In] in Hin. repeat (destruct Hin as [Hin|Hin]; [discriminate Hin|]).
    destruct Hin.
  - cbn [app In] in Hin. repeat (destruct Hin as [Hin|Hin]; [discriminate Hin|]).
    destruct Hin.
  - cbn [app In] in Hin.
    repeat (destruct Hin as [Hin|Hin]; [discriminate Hin|]).
    apply in_app_or in Hin as [Hin|Hin].
    + apply for_years_events in Hin as [Hin|(y & i & Hy & Hin)];
        [discriminate Hin|].
      injection Hin as ->. cbn [page_params dq_token dq_startdate dq_stationid ts_year].
      apply range_In in Hy.
      split; [reflexivity|]. split; [lia|]. exists lat, lon. auto.
    + exfalso. destruct (snd _) as [data|e'|]; cbn [after_fetch In] in Hin.
      * destruct Hin as [Hin|Hin]; [discriminate Hin|].
        destruct (process_data data (threshold_in inp)); cbn [shown In] in Hin;
          repeat (destruct Hin as [Hin|Hin]; [discriminate Hin|]); destruct Hin.
      * destruct Hin as [Hin|[]]. discriminate Hin.
      * destruct Hin.
Qed.

Ltac find_event := vm_compute; repeat (first [left; reflexivity | right]).

Lemma station_failure_stops_pipeline_witness :
  run_button springfield = true /\
  geocode sv_unauthorized (address springfield)
    = GeoLocation (Some (39.78, -89.65)%float) /\
  stations_api sv_unauthorized (station_params 39.78 (-89.65) "token")
    = Response 401 None /\
  non_success 401 /\
  main sv_unauthorized 5 springfield
  = [Call_get_coordinates "123 Main St, Springfield, IL";
     Geocode "123 Main St, Springfield, IL";
     Call_find_nearest_station 39.78 (-89.65) "token";
     GetStations (station_params 39.78 (-89.65) "token");
     St_error (HTTPError 401)].
Proof.
  assert (Hcode : non_success 401) by (unfold non_success; lia).
  split; [reflexivity|]. split; [reflexivity|]. split; [reflexivity|].
  split; [exact Hcode|].
  exact (station_failure_stops_pipeline sv_unauthorized 5 springfield
           39.78 (-89.65) 401 None eq_refl eq_refl eq_refl Hcode).
Defined.

Lemma error_ends_run_witness :
  In (St_error (HTTPError 503)) (main sv_failing 5 springfield) /\
  exists tr,
    main sv_failing 5 springfield = tr ++ [St_error (HTTPError 503)]
    /\ (forall ev, In ev tr ->
          is_display ev = false /\ stage_called ev <> Some Aggregator).
Proof.
  assert (Hin : In (St_error (HTTPError 503)) (main sv_failing 5 springfield))
    by find_event.
  split; [exact Hin|].
  exact (error_ends_run sv_failing 5 springfield (HTTPError 503) Hin).
Defined.

Lemma aggregated_run_ending_witness :
  let data := [obs 2020 6 1 15.0; obs 2020 6 2 20.0; obs 2020 6 3 10.0;
               obs 2021 6 1 15.0; obs 2021 6 2 20.0; obs 2021 6 3 10.0] in
  In (Call_process_data data 0.5) (main sv_short_pages 5 springfield) /\
  data <> [] /\
  exists tr t,
    process_data data 0.5 = Some t
    /\ main sv_short_pages 5 springfield
       = tr ++ [Call_process_data data 0.5; St_success; St_subheader 0.5;
                St_dataframe t; St_download_button t 2020 2021].
Proof.
  intros data.
  assert (Hin : In (Call_process_data data 0.5) (main sv_short_pages 5 springfield))
    by find_event.
  split; [exact Hin|]. split; [discriminate|].
  destruct (aggregated_run_ending sv_short_pages 5 springfield data 0.5 Hin)
    as [_ [[Hnil _]|[_ H]]]; [discriminate Hnil|exact H].
Defined.

Lemma run_requests_use_located_station_witness :
  let q := page_params (Some "GHCND:USW00014842") "token" 2021 1001 in
  In (GetData q) (main sv_short_pages 5 springfield) /\
  dq_token q = "token" /\
  2020 <= ts_year (dq_startdate q) <= 2021 /\
  exists lat lon,
    snd (get_coordinates sv_short_pages "123 Main St, Springfield, IL")
      = Returned (lat, lon)
    /\ snd (find_nearest_station sv_short_pages lat lon "token")
       = Returned (dq_stationid q).
Proof.
  intros q.
  assert (Hin : In (GetData q) (main sv_short_pages 5 springfield)) by find_event.
  split; [exact Hin|].
  exact (run_requests_use_located_station sv_short_pages 5 springfield q Hin).
Defined.

(** ** More on the aggregator *)

Section GroupBySize.
Context {K : Type} (cmp : K -> K -> comparison) `{!KeyOrder cmp}.

Lemma list_sum_zero {A : Type} (f : A -> nat) (l : list A) :
  (forall x, In x l -> f x = 0%nat) -> list_sum (map f l) = 0%nat.
Proof.
  induction l as [|a l IH]; intros H; [reflexivity|].
  change (f a + list_sum (map f l) = 0)%nat.
  rewrite (H a (or_introl eq_refl)), IH; [reflexivity|].
  intros x Hx. apply H. right. exact Hx.
Qed.

Lemma list_sum_map_add {A : Type} (f g : A -> nat) (l : list A) :
  list_sum (map (fun x => f x + g x)%nat l)
  = (list_sum (map f l) + list_sum (map g l))%nat.
Proof.
  induction l as [|a l IH]; [reflexivity|].
  change (f a + g a + list_sum (map (fun x => f x + g x) l)
          = f a + list_sum (map f l) + (g a + list_sum (map g l)))%nat.
  rewrite IH. lia.
Qed.

(** Among strictly ascending keys, a key that is there is there once. *)
Lemma sorted_key_once (x : K) (ks : list K) :
  StronglySorted (fun a b => cmp a b = Lt) ks ->
  In x ks ->
  list_sum (map (fun k => if Pandas.key_eqb cmp x k then 1 else 0)%nat ks) = 1%nat.
Proof.
  induction 1 as [|h t Hs IH Hh]; intros Hin; [destruct Hin|].
  change (((if Pandas.key_eqb cmp x h then 1 else 0)
           + list_sum (map (fun k => if Pandas.key_eqb cmp x k then 1 else 0) t)
           = 1)%nat).
  rewrite Forall_forall in Hh.
  destruct (Pandas.key_eqb cmp x h) eqn:E.
  - apply (key_eqb_eq cmp) in E. subst h.
    rewrite list_sum_zero; [reflexivity|].
    intros k Hk. unfold Pandas.key_eqb. rewrite (Hh k Hk). reflexivity.
  - destruct Hin as [->|Hin]; [|auto].
    unfold Pandas.key_eqb in E. rewrite (cmp_refl cmp) in E. discriminate.
Qed.

(** [size()] hands every row to exactly one group. *)
Lemma groupby_size_total {R : Type} (key : R -> K) (frame : list R) :
  list_sum (map snd (Pandas.groupby cmp key (@List.length R) frame))
  = List.length frame.
Proof.
  unfold Pandas.groupby. rewrite map_map. cbn [snd].
  assert (Hgen : forall ks rows,
    StronglySorted (fun a b => cmp a b = Lt) ks ->
    (forall r, In r rows -> In (key r) ks) ->
    list_sum
      (map (fun k => List.length
                       (filter (fun r => Pandas.key_eqb cmp (key r) k) rows)) ks)
    = List.length rows).
  { intros ks rows Hs. induction rows as [|r rows IH]; intros Hin.
    - apply list_sum_zero. intros k _. reflexivity.
    - rewrite (map_ext _
        (fun k => ((if Pandas.key_eqb cmp (key r) k then 1 else 0)
                   + List.length
                       (filter (fun r => Pandas.key_eqb cmp (key r) k) rows))%nat)).
      + rewrite list_sum_map_add.
        rewrite IH by (intros r' Hr'; apply Hin; right; exact Hr').
        rewrite sorted_key_once;
          [reflexivity|exact Hs|apply Hin; left; reflexivity].
      + intros k. cbn [filter].
        destruct (Pandas.key_eqb cmp (key r) k); reflexivity. }
  apply Hgen.
  - apply sorted_keys_sorted. exact _.
  - intros r Hr. apply (proj2 (sorted_keys_In cmp _ _)). apply in_map. exact Hr.
Qed.

(** [size()] only looks at the keys. *)
Lemma groupby_size_keys {R : Type} (key : R -> K) (frame : list R) :
  Pandas.groupby cmp key (@List.length R) frame
  = map (fun k => (k, List.length
                        (filter (fun k' => Pandas.key_eqb cmp k' k)
                                (map key frame))))
        (Pandas.sorted_keys cmp (map key frame)).
Proof.
  unfold Pandas.groupby. apply map_ext. intros k. f_equal.
  induction frame as [|r frame IH]; cbn [map filter]; [reflexivity|].
  destruct (Pandas.key_eqb cmp (key r) k); cbn [List.length]; rewrite IH;
    reflexivity.
Qed.
End GroupBySize.

(** X11. The day counts of all year-month groups add up to the number of
    rows: no row is lost or counted twice. *)
Theorem monthly_counts_total :
  forall df, list_sum (map snd (monthly_counts df)) = List.length df.
Proof.
  intros df. unfold monthly_counts. apply groupby_size_total. exact _.
Qed.

(** X12. The first grouping lists the year-months in ascending order, and
    lists a year-month exactly when some row falls in it, with the number of
    those rows; no group has a count of zero. *)
Theorem monthly_counts_spec :
  forall df,
    StronglySorted (fun a b => ym_compare a b = Lt) (map fst (monthly_counts df))
    /\ (forall y m n,
          In ((y, m), n) (monthly_counts df)
          <-> (0 < n)%nat
              /\ n = List.length
                       (filter (fun r => (ts_year (date r) =? y)
                                         && (ts_month (date r) =? m)) df)).
Proof.
  intros df. split; [apply monthly_counts_sorted|].
  intros y m n. rewrite monthly_counts_In.
  assert (E : days_in df y m
              = List.length
                  (filter (fun r => (ts_year (date r) =? y)
                                    && (ts_month (date r) =? m)) df)).
  { unfold days_in. f_equal. apply filter_ext. intros r.
    unfold Pandas.key_eqb, ym_compare, year_month. cbn [fst snd].
    destruct (Z.compare_spec (ts_year (date r)) y) as [Hy|Hy|Hy];
      destruct (Z.compare_spec (ts_month (date r)) m) as [Hm|Hm|Hm];
      destruct (Z.eqb_spec (ts_year (date r)) y);
      destruct (Z.eqb_spec (ts_month (date r)) m);
      try reflexivity; lia. }
  rewrite E. reflexivity.
Qed.

(** *** The months of the table *)

Lemma avg_days_months_sorted (df : list Observation) :
  StronglySorted Z.lt (map fst (avg_days (monthly_counts df))).
Proof.
  unfold avg_days. rewrite groupby_keys.
  apply (sorted_keys_sorted Z.compare).
Qed.

Lemma avg_days_months_In (df : list Observation) (m : Z) :
  In m (map fst (avg_days (monthly_counts df)))
  <-> exists r, In r df /\ ts_month (date r) = m.
Proof.
  unfold avg_days. rewrite groupby_keys, (sorted_keys_In Z.compare).
  rewrite in_map_iff. split.
  - intros ([[y m'] n] & Hm & Hrow). cbn [fst snd] in Hm. subst m'.
    apply monthly_counts_In in Hrow as [Hpos ->].
    apply days_in_pos in Hpos. apply in_map_iff in Hpos as (r & Hk & Hr).
    exists r. split; [exact Hr|].
    unfold year_month in Hk. congruence.
  - intros (r & Hr & Hm).
    exists ((ts_year (date r), m), days_in df (ts_year (date r)) m).
    split; [reflexivity|]. apply monthly_counts_In.
    split; [|reflexivity]. apply days_in_pos. apply in_map_iff.
    exists r. split; [|exact Hr]. unfold year_month. rewrite Hm. reflexivity.
Qed.

Lemma threshold_filter_In (threshold : float) (data : list Observation)
    (r' : Observation) :
  In r' (threshold_filter threshold (convert_units data))
  <-> exists r, In r data /\ r' = in_inches r
                /\ (threshold <=? value r * MM_TO_INCHES)%float = true.
Proof.
  unfold threshold_filter, convert_units. rewrite filter_In, in_map_iff. split.
  - intros [(r & <- & Hr) H]. exists r. auto.
  - intros (r & Hr & -> & H). split; [exists r; auto|exact H].
Qed.

(** X13. The table lists, in calendar order and once each, exactly the
    months in which some record reaches the threshold. *)
Theorem table_months :
  forall data threshold t,
    process_data data threshold = Some t ->
    exists months,
      map fst (rows t) = map (dict_get month_map) months
      /\ StronglySorted Z.lt months
      /\ (forall m,
            In m months
            <-> exists r,
                  In r data /\ ts_month (date r) = m
                  /\ (threshold <=? value r * 0.0393701)%float = true).
Proof.
  intros data threshold t. unfold process_data.
  destruct (Pandas.empty data); [discriminate|].
  intros E. injection E as <-. cbn [rows].
  set (Q := threshold_filter threshold (convert_units data)).
  exists (map fst (avg_days (monthly_counts Q))).
  split; [rewrite !map_map; reflexivity|].
  split; [apply avg_days_months_sorted|].
  intros m. rewrite avg_days_months_In. split.
  - intros (r' & Hr' & Hm). apply threshold_filter_In in Hr' as (r & Hr & -> & H).
    exists r. auto.
  - intros (r & Hr & Hm & H). exists (in_inches r).
    split; [|exact Hm]. apply threshold_filter_In. exists r. auto.
Qed.

(** *** Month names *)

Lemma dict_get_enumerate {A : Type} (l : list A) :
  forall start k,
    dict_get (enumerate start l) k
    = if k <? start then None else nth_error l (Z.to_nat (k - start)).
Proof.
  induction l as [|x l IH]; intros start k; cbn [enumerate dict_get].
  - destruct (k <? start); [reflexivity|].
    destruct (Z.to_nat (k - start)); reflexivity.
  - destruct (Z.eqb_spec k start) as [->|Hne].
    + rewrite Z.ltb_irrefl, Z.sub_diag. reflexivity.
    + rewrite IH.
      destruct (Z.ltb_spec k start) as [Hlt|Hge];
        destruct (Z.ltb_spec k (start + 1)) as [Hlt'|Hge']; try lia;
        try reflexivity.
      replace (Z.to_nat (k - start)) with (S (Z.to_nat (k - (start + 1)))) by lia.
      reflexivity.
Qed.

Lemma month_names_NoDup : NoDup month_names.
Proof.
  unfold month_names.
  repeat (constructor; [cbn [In]; intuition discriminate|]).
  constructor.
Qed.

Lemma month_map_named (m : Z) :
  1 <= m <= 12 ->
  exists name, dict_get month_map m = Some name /\ In name month_names.
Proof.
  intros Hm. unfold month_map. rewrite dict_get_enumerate.
  destruct (Z.ltb_spec m 1); [lia|].
  destruct (nth_error month_names (Z.to_nat (m - 1))) as [name|] eqn:E.
  - exists name. split; [reflexivity|]. eapply nth_error_In. exact E.
  - exfalso. apply nth_error_None in E. cbn [month_names List.length] in E. lia.
Qed.

Lemma month_map_injective (m1 m2 : Z) :
  1 <= m1 <= 12 -> 1 <= m2 <= 12 ->
  dict_get month_map m1 = dict_get month_map m2 -> m1 = m2.
Proof.
  intros H1 H2. unfold month_map. rewrite !dict_get_enumerate.
  destruct (Z.ltb_spec m1 1); [lia|]. destruct (Z.ltb_spec m2 1); [lia|].
  intros E.
  apply (proj1 (NoDup_nth_error month_names) month_names_NoDup) in E.
  - lia.
  - cbn [month_names List.length]. lia.
Qed.

Lemma StronglySorted_lt_NoDup (l : list Z) : StronglySorted Z.lt l -> NoDup l.
Proof.
  induction 1 as [|a l Hs IH Ha]; constructor; [|exact IH].
  rewrite Forall_forall in Ha. intros Hin. apply Ha in Hin. lia.
Qed.

(** X14. With dates whose months are calendar months, every row of the
    table has a month name and no name comes twice. *)
Theorem table_month_names :
  forall data threshold t,
    (forall r, In r data -> 1 <= ts_month (date r) <= 12) ->
    process_data data threshold = Some t ->
    NoDup (map fst (rows t))
    /\ (forall row, In row (rows t) ->
          exists name, fst row = Some name /\ In name month_names).
Proof.
  intros data threshold t Hvalid. unfold process_data.
  destruct (Pandas.empty data); [discriminate|].
  set (Q := threshold_filter threshold (convert_units data)).
  intros E.
  assert (Ht : rows t
               = map (fun row => (dict_get month_map (fst row), snd row))
                   (avg_days (monthly_counts Q)))
    by (injection E as <-; reflexivity).
  rewrite Ht. clear E Ht.
  assert (Hmonths : forall m, In m (map fst (avg_days (monthly_counts Q))) ->
                              1 <= m <= 12).
  { intros m Hm. apply avg_days_months_In in Hm as (r' & Hr' & <-).
    apply threshold_filter_In in Hr' as (r & Hr & -> & _).
    cbn [in_inches date]. apply Hvalid. exact Hr. }
  split.
  - replace (map fst
               (map (fun row => (dict_get month_map (fst row), snd row))
                  (avg_days (monthly_counts Q))))
      with (map (dict_get month_map) (map fst (avg_days (monthly_counts Q))))
      by (rewrite !map_map; reflexivity).
    apply NoDup_map_NoDup_ForallPairs.
    + intros m1 m2 H1 H2. apply month_map_injective; auto.
    + apply StronglySorted_lt_NoDup. apply avg_days_months_sorted.
  - intros row Hrow. apply in_map_iff in Hrow as (row' & <- & Hrow').
    cbn [fst]. apply month_map_named. apply Hmonths.
    apply in_map. exact Hrow'.
Qed.

(** *** Missing values *)

Lemma SFleb_not_nan (a b : spec_float) :
  SFleb a b = true -> SFeqb b b = true.
Proof.
  unfold SFleb, SFeqb, SFcompare.
  destruct a as [sa|sa| |sa ma ea], b as [sb|sb| |sb mb eb];
    try discriminate; intros _;
    try destruct sb; try reflexivity;
    rewrite Z.compare_refl, Pos.compare_cont_refl; reflexivity.
Qed.

(** X15. A value that is not a number (a missing value) never qualifies,
    whatever the threshold. *)
Theorem qualifying_values_are_numbers :
  forall data threshold r,
    In r (threshold_filter threshold (convert_units data)) ->
    is_nan (value r) = false.
Proof.
  intros data threshold r Hin. unfold threshold_filter in Hin.
  apply filter_In in Hin as [_ H].
  unfold is_nan. rewrite FloatAxioms.leb_spec in H.
  rewrite FloatAxioms.eqb_spec, (SFleb_not_nan _ _ H). reflexivity.
Qed.

(** *** What the aggregator reads *)

Lemma qualifying_keys_read_fields (threshold : float) :
  forall data1 data2,
    map read_fields data1 = map read_fields data2 ->
    map year_month (threshold_filter threshold (convert_units data1))
    = map year_month (threshold_filter threshold (convert_units data2)).
Proof.
  induction data1 as [|r1 d1 IH]; intros [|r2 d2] E; try discriminate;
    [reflexivity|].
  cbn [map] in E.
  assert (Hh : read_fields r1 = read_fields r2) by congruence.
  assert (Hrest : map read_fields d1 = map read_fields d2) by congruence.
  unfold read_fields in Hh.
  assert (Hk : year_month r1 = year_month r2) by congruence.
  assert (Hv : value r1 = value r2) by congruence.
  specialize (IH d2 Hrest).
  unfold threshold_filter, convert_units in *. cbn [map filter].
  cbn [in_inches value]. rewrite Hv.
  destruct (threshold <=? value r2 * MM_TO_INCHES)%float; cbn [map].
  - f_equal; [exact Hk|exact IH].
  - exact IH.
Qed.

(** X16. The table depends on the year, the month and the value of each
    record only: the day of the month and the station are not looked at. *)
Theorem process_data_reads_year_month_value :
  forall data1 data2 threshold,
    map read_fields data1 = map read_fields data2 ->
    process_data data1 threshold = process_data data2 threshold.
Proof.
  intros data1 data2 threshold E. unfold process_data.
  assert (Hempty : Pandas.empty data1 = Pandas.empty data2).
  { destruct data1, data2; try discriminate; reflexivity. }
  rewrite Hempty. destruct (Pandas.empty data2); [reflexivity|].
  unfold monthly_counts.
  rewrite !(groupby_size_keys ym_compare).
  rewrite (qualifying_keys_read_fields threshold data1 data2 E).
  reflexivity.
Qed.

Lemma table_months_witness :
  let t := mkTable 0.5 [(Some "June", 4.0%float)] in
  process_data june_records 0.5 = Some t /\
  exists months,
    map fst (rows t) = map (dict_get month_map) months
    /\ StronglySorted Z.lt months
    /\ (forall m,
          In m months
          <-> exists r,
                In r june_records /\ ts_month (date r) = m
                /\ (0.5 <=? value r * 0.0393701)%float = true).
Proof.
  intros t.
  assert (H : process_data june_records 0.5 = Some t) by reflexivity.
  split; [exact H|].
  exact (table_months june_records 0.5 t H).
Defined.

Lemma june_records_months :
  forall r, In r june_records -> 1 <= ts_month (date r) <= 12.
Proof.
  intros r Hr. unfold june_records in Hr. cbn [In] in Hr.
  repeat (destruct Hr as [<-|Hr]; [cbn; lia|]). destruct Hr.
Qed.

Lemma table_month_names_witness :
  let t := mkTable 0.5 [(Some "June", 4.0%float)] in
  (forall r, In r june_records -> 1 <= ts_month (date r) <= 12) /\
  process_data june_records 0.5 = Some t /\
  NoDup (map fst (rows t)) /\
  (forall row, In row (rows t) ->
     exists name, fst row = Some name /\ In name month_names).
Proof.
  intros t.
  assert (H : process_data june_records 0.5 = Some t) by reflexivity.
  split; [exact june_records_months|]. split; [exact H|].
  exact (table_month_names june_records 0.5 t june_records_months H).
Defined.

Lemma qualifying_values_are_numbers_witness :
  let data := [obs 2020 6 1 nan; obs 2020 6 2 20.0] in
  let r := obs 2020 6 2 (20.0 * MM_TO_INCHES)%float in
  threshold_filter 0.5 (convert_units data) = [r] /\
  In r (threshold_filter 0.5 (convert_units data)) /\
  is_nan (value r) = false.
Proof.
  intros data r.
  assert (Hin : In r (threshold_filter 0.5 (convert_units data)))
    by (left; reflexivity).
  split; [reflexivity|]. split; [exact Hin|].
  exact (qualifying_values_are_numbers data 0.5 r Hin).
Defined.

Lemma process_data_reads_year_month_value_witness :
  let data1 := [obs 2020 6 1 15.0; obs 2020 6 2 20.0; obs 2021 7 3 30.0] in
  let data2 :=
    [mkObservation (mkTimestamp 2020 6 9) 15.0 "GHCND:USC00118179";
     mkObservation (mkTimestamp 2020 6 9) 20.0 "GHCND:USC00118179";
     mkObservation (mkTimestamp 2021 7 9) 30.0 "GHCND:USW00014842"] in
  map read_fields data1 = map read_fields data2 /\
  process_data data1 0.5 = process_data data2 0.5.
Proof.
  intros data1 data2.
  assert (H : map read_fields data1 = map read_fields data2) by reflexivity.
  split; [exact H|].
  exact (process_data_reads_year_month_value data1 data2 0.5 H).
Defined.
